(** * Thor consensus core: fork configuration, block processing and the
    RTPC tracker

    A shallow embedding of

    - package [thor]: [ForkConfig], [NoFork], the table of VRF public keys of
      the legacy masternodes;
    - package [consensus]: [Consensus.Process] and
      [Consensus.UpdateConsensusNodesForVip193];
    - package [bft]: the [rtpc] tracker ([updateLastCommitted], [update]).

    Unsigned machine integers ([uint32] block numbers and feature bitsets,
    [uint64] timestamps) are carried by [Z]; addresses and 32-byte hashes are
    carried by the integer their big-endian bytes denote, so that the zero
    address / zero hash is [0].  Pointer results that Go code dereferences are
    options, and a dereference of [nil] (or an index out of range) is the
    explicit outcome [Panic]. *)

From Stdlib Require Import ZArith Bool Lia.
From stdpp Require Import base option list gmap strings pretty.

Local Open Scope Z_scope.

(* ===================================================================== *)
(** * Package thor *)
(* ===================================================================== *)

Module thor.

(** [thor.Address] (20 bytes) and [thor.Bytes32], read as big-endian
    numbers. *)
Definition Address := Z.
Definition Bytes32 := Z.

(** [Bytes32.IsZero] / [Address.IsZero]. *)
Definition IsZero (b : Z) : bool := b =? 0.

Definition MaxUint32 : Z := 4294967295.
Definition MaxInt32 : Z := 2147483647.

(** [uint32] wrap-around. *)
Definition wrap32 (n : Z) : Z := n mod 2 ^ 32.

(** ForkConfig config for a fork. *)
Record ForkConfig := mkForkConfig {
  VIP191 : Z;
  ETH_CONST : Z;
  BLOCKLIST : Z;
  VIP193 : Z
}.

(** The closure [push] of [ForkConfig.String]: a fork is listed unless its
    height is [math.MaxUint32]. *)
Definition push (strs : list string) (name : string) (blockNum : Z)
  : list string :=
  if blockNum =? MaxUint32 then strs
  else strs ++ [name +:+ ": #" +:+ pretty blockNum].

Definition ForkConfig_String (fc : ForkConfig) : string :=
  let strs := push [] "VIP191" (VIP191 fc) in
  let strs := push strs "ETH_CONST" (ETH_CONST fc) in
  let strs := push strs "BLOCKLIST" (BLOCKLIST fc) in
  let strs := push strs "VIP193" (VIP193 fc) in
  String.concat ", " strs.

(** NoFork a special config without any forks. *)
Definition NoFork : ForkConfig := {|
  VIP191 := MaxUint32;
  ETH_CONST := MaxUint32;
  BLOCKLIST := MaxUint32;
  VIP193 := MaxInt32
|}.

(** list of vrf public keys for existing masternodes *)
Definition vrfPublicKeyMap : gmap Z Z :=
  {[ 0x2a02604a8b7aaa84991c21d7de1c3238046c5275 :=
       0x96893d6f2d785dbdf75d635d74ee53b85a3e7837150d321c4965de3def134182;
     0x86fd9eb1cf082d7d6b0c6033fc89ccfcbf648549 :=
       0x97b182c4d88435c3781bf5f29a59c169a91564acbf193c9ba95a4db3fa703f26;
     0x8f53d18bb03c84ed92abe0b6a9a8c277dbbf719f :=
       0x2ab534b885f45e7e628e3bea8bb1a7e914f0009d077a44ac2d4461e7731fcb2c ]}.

(** GetVrfPuiblicKey returns the vrf public key for a given node.  A Go map
    read of an absent key yields the zero value. *)
Definition GetVrfPuiblicKey (addr : Address) : Bytes32 :=
  default 0 (vrfPublicKeyMap !! addr).

End thor.

(* ===================================================================== *)
(** * Errors and results *)
(* ===================================================================== *)

(** A value stored in the data part of a consensus error (the Go code passes
    [[]interface{}]): a feature bitset, a block number or an address. *)
Inductive datum :=
| DFeatures (f : Z)
| DNumber (n : Z)
| DAddress (a : thor.Address).

(** Modelled from the spec: the [consensusError] type, whose declaration
    (consensus/err.go) is not among the sources.  Section 7 of the
    specification gives a consensus error a tag, a trace of stages and
    structured key/value pairs, with an optional cause.  [newConsensusError]
    takes them in the order of the calls in consensus.go, and [AddTraceInfo]
    records one more stage. *)
Record consensusError := mkConsensusError {
  trace : list string;
  tag : string;
  dataKeys : list string;
  dataVals : list datum;
  cause : string
}.

Definition newConsensusError (stage msg : string) (keys : list string)
    (vals : list datum) (cause : string) : consensusError :=
  mkConsensusError [stage] msg keys vals cause.

Definition AddTraceInfo (e : consensusError) (stage : string)
  : consensusError :=
  mkConsensusError (stage :: trace e) (tag e) (dataKeys e) (dataVals e)
    (cause e).

(** Go [error] values: the three flow-error sentinels of package consensus,
    [errors.New] values, consensus errors, and errors raised by a
    collaborator (repository, state, authority contract). *)
Inductive error :=
| errFutureBlock
| errParentMissing
| errKnownBlock
| errorsNew (msg : string)
| ConsensusError (e : consensusError)
| externalError (code : Z).

(** [err.Error()]. Only the text of a cause matters below. *)
Definition Error (e : error) : string :=
  match e with
  | errFutureBlock => "block in the future"
  | errParentMissing => "parent block missing"
  | errKnownBlock => "block already in the chain"
  | errorsNew msg => msg
  | ConsensusError c => tag c
  | externalError code => pretty code
  end.

(** A Go call returning [(value, error)] where exactly one is meaningful. *)
Inductive result (A : Type) :=
| Ok (a : A)
| Err (e : error).
Arguments Ok {A} a.
Arguments Err {A} e.

(** The two halves of a Go [(ptr, err)] result: the pointer is [nil] on
    failure, the error is [nil] on success. *)
Definition ptr_of {A} (x : result A) : option A :=
  match x with Ok a => Some a | Err _ => None end.
Definition err_of {A} (x : result A) : option error :=
  match x with Ok _ => None | Err e => Some e end.

(** How a Go call ends: it returns, or the goroutine panics (nil dereference,
    index out of range, failed type assertion). *)
Inductive outcome (A : Type) :=
| Panic
| Return (a : A).
Arguments Panic {A}.
Arguments Return {A} a.

(* ===================================================================== *)
(** * Packages block and chain: what the core reads from them *)
(* ===================================================================== *)

Module block.

(** The header accessors used by the core.  The Go methods compute them
    from the header body; here they are fields. *)
Record Header := mkHeader {
  ID : thor.Bytes32;
  ParentID : thor.Bytes32;
  Number : Z;
  Timestamp : Z;
  TxsFeatures : Z;
  NV : thor.Bytes32;
  StateRoot : thor.Bytes32
}.

Record Block := mkBlock {
  Header_ : Header;
  Transactions : list thor.Bytes32
}.

End block.

Module chain.

Record BlockSummary := mkBlockSummary {
  Header : block.Header
}.

(** A [*chain.Chain]: the branch ending at [HeadID]. *)
Record Chain := mkChain {
  HeadID : thor.Bytes32;
  GetBlockHeader : Z -> result block.Header
}.

(** The contract of [*chain.Repository] as far as the core uses it. *)
Record Repository := mkRepository {
  GetBlockSummary : thor.Bytes32 -> result BlockSummary;
  IsNotFound : error -> bool;
  NewChain : thor.Bytes32 -> Chain;
  GetBranchesByTimestamp : Z -> result (list Chain)
}.

End chain.

(* ===================================================================== *)
(** * Package bft: the RTPC tracker *)
(* ===================================================================== *)

Module bft.

(** What [rtpc] asks of a [*view]. *)
Record view := mkView {
  hasQCForNV : bool;
  getFirstBlockID : thor.Bytes32;
  getNumSigOnPC : thor.Bytes32 -> Z;
  hasQCForPP : bool * thor.Bytes32;
  hasConflictPC : bool
}.

Record rtpc := mkRtpc {
  repo : chain.Repository;
  curr : option block.Header;
  lastCommitted : thor.Bytes32
}.

Definition newRTPC (repo : chain.Repository) (lastCommitted : thor.Bytes32)
  : rtpc := mkRtpc repo None lastCommitted.

Definition get (r : rtpc) : option block.Header := curr r.

(** Where the steps of [update] can lead. *)
Inductive step (A : Type) :=
| StepPanic
| StepReturn (e : option error)
| StepNext (a : A).
Arguments StepPanic {A}.
Arguments StepReturn {A} e.
Arguments StepNext {A} a.

(** Result of the search through the newer views of the branches. *)
Inductive search :=
| SearchErr (e : error)
| SearchEnd (ifUpdate : bool).

Section RTPC.

(** Functions of packages bft and block that are not among the sources:
    [isAncestor repo offspring ancestor], [newView branch num] and
    [block.Number id]. *)
Variable isAncestor :
  chain.Repository -> thor.Bytes32 -> thor.Bytes32 -> result bool.
Variable newView : chain.Chain -> Z -> result view.
Variable block_Number : thor.Bytes32 -> Z.

Definition updateLastCommitted (r : rtpc) (lastCommitted : thor.Bytes32)
  : option error * rtpc :=
  let check :=
    if negb (thor.IsZero (bft.lastCommitted r)) then
      (* lastCommitted must be an offspring of r.lastCommitted *)
      match isAncestor (repo r) lastCommitted (bft.lastCommitted r) with
      | Err e => Some e
      | Ok false =>
          Some (errorsNew
            "Input block must be an offspring of the last committed")
      | Ok true => None
      end
    else None in
  match check with
  | Some e => (Some e, r)
  | None =>
      let r := mkRtpc (repo r) (curr r) lastCommitted in
      match curr r with
      | None => (None, r)
      | Some c =>
          (* if the current RTPC block is not newer than the latest block
             committed locally *)
          match chain.GetBlockSummary (repo r) lastCommitted with
          | Err e => (Some e, r)
          | Ok summary =>
              if block.Timestamp c
                   <=? block.Timestamp (chain.Header summary)
              then (None, mkRtpc (repo r) None (bft.lastCommitted r))
              else (None, r)
          end
      end
  end.

(** Lines 71-75 of [update]: the summary of the view's first block is
    dereferenced before [err] is looked at. *)
Definition update_currViewTS (r : rtpc) (currView : view) : step Z :=
  let res := chain.GetBlockSummary (repo r) (getFirstBlockID currView) in
  let summary := ptr_of res in
  let err := err_of res in
  match summary with
  | None => StepPanic
  | Some s =>
      let currViewTS := block.Timestamp (chain.Header s) in
      match err with
      | Some e => StepReturn (Some e)
      | None => StepNext currViewTS
      end
  end.

(** The inner [for] of the search along one branch, from block [num]
    downwards.  [None]: the fuel ran out.  [Some (SearchEnd true)]: the
    loop was left by [break]; [Some (SearchEnd false)]: by
    [goto END_SEARCH]. *)
Fixpoint searchBranch (fuel : nat) (candidate : block.Header)
    (currViewTS : Z) (branch : chain.Chain) (num : Z) : option search :=
  match fuel with
  | O => None
  | S fuel =>
      match chain.GetBlockHeader branch num with
      | Err e => Some (SearchErr e)
      | Ok header =>
          let num := block_Number (block.NV header) in
          (* Along each branch, search for views that are newer than the
             view that includes the new block *)
          match chain.GetBlockHeader branch num with
          | Err e => Some (SearchErr e)
          | Ok nv =>
              if block.Timestamp nv <=? currViewTS
              then Some (SearchEnd true)
              else
                match newView branch num with
                | Err e => Some (SearchErr e)
                | Ok vw =>
                    if hasQCForNV vw
                       && (getNumSigOnPC vw (block.ID candidate) =? 0)
                    then Some (SearchEnd false)
                    else
                      (* move to the previous view *)
                      let num := thor.wrap32 (num - 1) in
                      if num <=? 0 then Some (SearchEnd true)
                      else searchBranch fuel candidate currViewTS branch
                             num
                end
          end
      end
  end.

(** The outer [for _, branch := range branches]. *)
Fixpoint searchBranches (fuel : nat) (candidate : block.Header)
    (currViewTS : Z) (branches : list chain.Chain) : option search :=
  match branches with
  | [] => Some (SearchEnd true)
  | branch :: branches =>
      match searchBranch fuel candidate currViewTS branch
              (block_Number (chain.HeadID branch)) with
      | None => None
      | Some (SearchErr e) => Some (SearchErr e)
      | Some (SearchEnd false) => Some (SearchEnd false)
      | Some (SearchEnd true) =>
          searchBranches fuel candidate currViewTS branches
      end
  end.

(** A branch on which every header votes in a view led by a block between
    number 1 and its own number, and whose head number is a [uint32]. *)
Definition wellFormed (branch : chain.Chain) : Prop :=
  block_Number (chain.HeadID branch) < 2 ^ 32
  /\ forall n header,
       chain.GetBlockHeader branch n = Ok header ->
       1 <= block_Number (block.NV header) <= n.

(** The view [update] builds for [newBlock]. *)
Definition viewOf (r : rtpc) (newBlock : block.Block) : result view :=
  newView
    (chain.NewChain (repo r) (block.ID (block.Header_ newBlock)))
    (block_Number (block.NV (block.Header_ newBlock))).

Definition update (fuel : nat) (r : rtpc) (newBlock : block.Block)
  : option (outcome (option error * rtpc)) :=
  (* Construct the view containing the lastest received block *)
  match viewOf r newBlock with
  | Err e => Some (Return (Some e, r))
  | Ok currView =>
      (* Check whether there are 2f+1 sigs *)
      if negb (hasQCForNV currView) then Some (Return (None, r))
      else
        (* Make sure the view is newer that the current RTPC block *)
        match update_currViewTS r currView with
        | StepPanic => Some Panic
        | StepReturn e => Some (Return (e, r))
        | StepNext currViewTS =>
            if match curr r with
               | Some c => currViewTS <=? block.Timestamp c
               | None => false
               end
            then Some (Return (None, r))
            else
              (* Invalidate the current RTPC block if the latest view
                 contains no pc message of the block *)
              let r :=
                if match curr r with
                   | Some c => getNumSigOnPC currView (block.ID c) =? 0
                   | None => false
                   end
                then mkRtpc (repo r) None (lastCommitted r)
                else r in
              (* Stop here if there is a valid RTPC block *)
              match curr r with
              | Some _ => Some (Return (None, r))
              | None =>
                  (* Check whether the view has 2f+1 pp messages and no
                     conflict pc message *)
                  let '(ok, id) := hasQCForPP currView in
                  if negb ok || hasConflictPC currView
                  then Some (Return (None, r))
                  else
                    match chain.GetBlockSummary (repo r) id with
                    | Err e => Some (Return (Some e, r))
                    | Ok summary =>
                        let candidate := chain.Header summary in
                        (* Candidate RTPC block must be newer than the
                           last committed *)
                        match chain.GetBlockSummary (repo r)
                                (lastCommitted r) with
                        | Err e => Some (Return (Some e, r))
                        | Ok summary =>
                            if block.Timestamp candidate
                                 <=? block.Timestamp (chain.Header summary)
                            then Some (Return (None, r))
                            else
                              (* Check whether every newer view contains
                                 pc message of the candidate RTPC block *)
                              match chain.GetBranchesByTimestamp (repo r)
                                      currViewTS with
                              | Err e => Some (Return (Some e, r))
                              | Ok branches =>
                                  match searchBranches fuel candidate
                                          currViewTS branches with
                                  | None => None
                                  | Some (SearchErr e) =>
                                      Some (Return (Some e, r))
                                  | Some (SearchEnd ifUpdate) =>
                                      (* update RTPC if every view newer
                                         than the view contains at least
                                         one pc message for the view *)
                                      Some (Return (None,
                                        if ifUpdate
                                        then mkRtpc (repo r)
                                               (Some candidate)
                                               (lastCommitted r)
                                        else r))
                                  end
                              end
                        end
                    end
              end
        end
  end.

End RTPC.

End bft.

(* ===================================================================== *)
(** * Package consensus *)
(* ===================================================================== *)

Module consensus.

(** An entry of the authority registry, as [AllCandidates] returns it. *)
Record Candidate := mkCandidate {
  NodeMaster : thor.Address;
  Endorsor : thor.Address;
  Identity : thor.Bytes32;
  VrfPublicKey : thor.Bytes32;
  Active : bool
}.

Definition Code := list Z.

Section Consensus.

(** The state handle, the pending state write and the receipt list are
    owned by collaborators. *)
Variables State Stage Receipts : Type.

(** [state.State.SetCode]; [Ok st] is the state after the write. *)
Variable SetCode : State -> thor.Address -> Code -> result State.

(** The native authority contract over a state
    ([builtin.Authority.Native(st)]): a call returns the state it leaves
    behind and its Go results. *)
Variable AllCandidates : State -> result (list Candidate).
Variable Add2 :
  State -> thor.Address -> thor.Address -> thor.Bytes32 -> thor.Bytes32 ->
  State * (bool * option error).
Variable Update2 :
  State -> thor.Address -> bool -> State * (bool * option error).

(** Constants of packages builtin, tx and consensus that are not among
    the sources. *)
Variable Extension_Address : thor.Address.
Variable Extension_V2_RuntimeBytecodes : Code.
Variable Authority_Address : thor.Address.
Variable Authority_V2_RuntimeBytecodes : Code.
Variable DelegationFeature : Z.
Variables strErrTxFeatures strDataExpected strDataCurr strDataExp : string.

(** Consensus check whether the block is verified, and predicate which
    trunk it belong to. *)
Record Consensus := mkConsensus {
  repo : chain.Repository;
  stater_NewState : thor.Bytes32 -> State;
  forkConfig : thor.ForkConfig
}.

(** [Consensus.validate], the verification pipeline behind [Process]
    (not among the sources). *)
Variable validate :
  Consensus -> State -> block.Block -> block.Header -> Z ->
  result (Stage * Receipts).

Definition causeMsg_of (err : option error) : string :=
  match err with
  | Some e => Error e
  | None => EmptyString
  end.

Definition errNode (msg : string) (node : thor.Address) (cause : string)
  : error :=
  ConsensusError
    (newConsensusError "UpdateNode" msg ["node"%string] [DAddress node]
       cause).

(** The [for i, candidate := range candidates] loop of
    [UpdateConsensusNodesForVip193], from index [i] on.  The state of the
    authority contract is threaded through. *)
Fixpoint updateNodes (st : State) (i : nat) (candidates : list Candidate)
  : option error * State :=
  match candidates with
  | [] => (None, st)
  | candidate :: rest =>
      let vrfpk := thor.GetVrfPuiblicKey (NodeMaster candidate) in
      if thor.IsZero vrfpk
      then (Some (errNode "vrf public key not found"
                    (NodeMaster candidate) EmptyString), st)
      else
        let candidate :=
          mkCandidate (NodeMaster candidate) (Endorsor candidate)
            (Identity candidate) vrfpk (Active candidate) in
        let '(st, (ok, err)) :=
          Add2 st (NodeMaster candidate) (Endorsor candidate)
            (Identity candidate) (VrfPublicKey candidate) in
        if negb ok || bool_decide (is_Some err)
        then (Some (errNode "failed to add node" (NodeMaster candidate)
                      (causeMsg_of err)), st)
        else if negb (Active candidate)
        then
          let '(st, (ok, err)) :=
            Update2 st (NodeMaster candidate) false in
          if (negb ok && (0 <? i)%nat) || bool_decide (is_Some err)
          then (Some (errNode "failed to update node status"
                        (NodeMaster candidate) (causeMsg_of err)), st)
          else updateNodes st (S i) rest
        else updateNodes st (S i) rest
  end.

(** UpdateConsensusNodesForVip193 adds vrf public key for each existing
    consensus node.  The Go function returns the error only; the final
    value of its local state [st] is returned with it, so that it can be
    spoken about. *)
Definition UpdateConsensusNodesForVip193 (c : Consensus)
    (header : block.Header) : outcome (option error * State) :=
  let st := stater_NewState c (block.ID header) in
  if negb (thor.VIP193 (forkConfig c) =? block.Number header)
  then Return
         (Some (ConsensusError
            (newConsensusError "UpdateNode"
               "block number inconsistent with vip193"
               [strDataExp; strDataCurr]
               [DNumber (thor.VIP193 (forkConfig c));
                DNumber (block.Number header)] EmptyString)), st)
  else
    match AllCandidates st with
    | Err e => Return (Some e, st)
    | Ok candidates =>
        match updateNodes st 0 candidates with
        | (Some e, st) => Return (Some e, st)
        | (None, st) =>
            (* Update again the status of the first node because when it
               is added to the state it is unlinked and therefore, its
               status is not updated *)
            match candidates with
            | [] => Panic
            | c0 :: _ =>
                if negb (Active c0)
                then
                  let '(st, (ok, err)) :=
                    Update2 st (NodeMaster c0) false in
                  if negb ok || bool_decide (is_Some err)
                  then Return
                         (Some (errNode "failed to update node status"
                                  (NodeMaster c0) (causeMsg_of err)), st)
                  else Return (None, st)
                else Return (None, st)
            end
        end
    end.

Definition ProcessResult : Type :=
  outcome (option Stage * option Receipts * option error).

Definition fail (e : error) : ProcessResult :=
  Return (None, None, Some e).

(** The height [Process] works with: [0] is read as [1]. *)
Definition effective (h : Z) : Z := if h =? 0 then 1 else h.

(** The features [Process] requires of the header of block [number]. *)
Definition requiredFeatures (vip191 number : Z) : Z :=
  let features := 0 in
  if number >=? vip191 then Z.lor features DelegationFeature
  else features.

(** The [if header.Number() == vip193] block of [Process]: [inl] leaves
    [Process], [inr] goes on with the state. *)
Definition upgradeAuthority (c : Consensus) (state : State)
    (header : block.Header) : ProcessResult + State :=
  match SetCode state Authority_Address Authority_V2_RuntimeBytecodes with
  | Err e =>
      inl (fail (ConsensusError
             (newConsensusError "Process"
                "failed to add authority v2 bytecode" [] [] (Error e))))
  | Ok state =>
      match UpdateConsensusNodesForVip193 c header with
      | Panic => inl Panic
      | Return (Some err, _) =>
          (* err.(consensusError).AddTraceInfo("Process") *)
          match err with
          | ConsensusError ce =>
              inl (fail (ConsensusError (AddTraceInfo ce "Process")))
          | _ => inl Panic
          end
      | Return (None, _) => inr state
      end
  end.

(** Process process a block. *)
Definition Process (c : Consensus) (blk : block.Block) (nowTimestamp : Z)
  : ProcessResult :=
  let header := block.Header_ blk in
  match chain.GetBlockSummary (repo c) (block.ID header) with
  | Ok _ => fail errKnownBlock
  | Err err =>
      if negb (chain.IsNotFound (repo c) err) then fail err
      else
        match chain.GetBlockSummary (repo c) (block.ParentID header) with
        | Err err =>
            if negb (chain.IsNotFound (repo c) err) then fail err
            else fail errParentMissing
        | Ok parentSummary =>
            let state :=
              stater_NewState c
                (block.StateRoot (chain.Header parentSummary)) in
            let vip191 := effective (thor.VIP191 (forkConfig c)) in
            (* Before process hook of VIP-191, update builtin extension
               contract's code to V2 *)
            match (if block.Number header =? vip191
                   then SetCode state Extension_Address
                          Extension_V2_RuntimeBytecodes
                   else Ok state) with
            | Err err => fail err
            | Ok state =>
                let features :=
                  requiredFeatures vip191 (block.Number header) in
                if negb (block.TxsFeatures header =? features)
                then fail (ConsensusError
                       (newConsensusError "Process" strErrTxFeatures
                          [strDataExpected; strDataCurr]
                          [DFeatures features;
                           DFeatures (block.TxsFeatures header)] EmptyString))
                else
                  let vip193 := effective (thor.VIP193 (forkConfig c)) in
                  match (if block.Number header =? vip193
                         then upgradeAuthority c state header
                         else inr state) with
                  | inl out => out
                  | inr state =>
                      match validate c state blk
                              (chain.Header parentSummary)
                              nowTimestamp with
                      | Err err => fail err
                      | Ok (stage, receipts) =>
                          Return (Some stage, Some receipts, None)
                      end
                  end
            end
        end
  end.

(** [Process] gets past the feature check of [blk]: the block is not
    stored, its parent is ([parentSummary]), the write of the extension
    code (if it is due) succeeds and leaves [state], and the header
    carries the required features. *)
Definition passesFeatures (c : Consensus) (blk : block.Block)
    (parentSummary : chain.BlockSummary) (state : State) : Prop :=
  let header := block.Header_ blk in
  let vip191 := effective (thor.VIP191 (forkConfig c)) in
  (exists e, chain.GetBlockSummary (repo c) (block.ID header) = Err e
             /\ chain.IsNotFound (repo c) e = true)
  /\ chain.GetBlockSummary (repo c) (block.ParentID header)
     = Ok parentSummary
  /\ (if block.Number header =? vip191
      then SetCode
             (stater_NewState c
                (block.StateRoot (chain.Header parentSummary)))
             Extension_Address Extension_V2_RuntimeBytecodes
      else Ok (stater_NewState c
                 (block.StateRoot (chain.Header parentSummary))))
     = Ok state
  /\ block.TxsFeatures header
     = requiredFeatures vip191 (block.Number header).

(** The status step of the loop for candidate number [i]: nothing for an
    active candidate; for an inactive one, [Update2 (nodeMaster, false)]
    without error, and with a positive answer unless [i = 0]. *)
Definition StatusKept (st : State) (i : nat) (cand : Candidate)
    (st' : State) : Prop :=
  if Active cand then st' = st
  else exists ok, Update2 st (NodeMaster cand) false = (st', (ok, None))
                  /\ (ok = true \/ i = 0%nat).

(** The loop in the words of the specification: every candidate is
    looked up in the embedded key table and added again with the key
    found there. *)
Inductive ReAdded : State -> nat -> list Candidate -> State -> Prop :=
| ReAdded_nil st i : ReAdded st i [] st
| ReAdded_cons st i cand rest key st1 st2 st3 :
    thor.vrfPublicKeyMap !! NodeMaster cand = Some key ->
    key <> 0 ->
    Add2 st (NodeMaster cand) (Endorsor cand) (Identity cand) key
      = (st1, (true, None)) ->
    StatusKept st1 i cand st2 ->
    ReAdded st2 (S i) rest st3 ->
    ReAdded st i (cand :: rest) st3.

(** Modelled from the spec: what [Add2] and [Update2] do to the active
    flag of an authority entry (package builtin is not among the
    sources).  [isActive st nm] reads the flag of [nm].  A status update
    that answers [true] sets the flag; a successful [Add2] leaves the new
    entry active; a call about one node master does not change the flag
    of another. *)
Record AuthorityContract (isActive : State -> thor.Address -> bool)
  : Prop := mkAuthorityContract {
  update2_sets : forall st nm active st',
    Update2 st nm active = (st', (true, None)) ->
    isActive st' nm = active;
  add2_activates : forall st nm en id key st',
    Add2 st nm en id key = (st', (true, None)) ->
    isActive st' nm = true;
  add2_frame : forall st nm en id key other,
    other <> nm ->
    isActive (Add2 st nm en id key).1 other = isActive st other;
  update2_frame : forall st nm active other,
    other <> nm ->
    isActive (Update2 st nm active).1 other = isActive st other
}.

End Consensus.

Arguments repo {State} c.
Arguments stater_NewState {State} c root.
Arguments forkConfig {State} c.

End consensus.

(* ===================================================================== *)
(** * A small chain to run the tracker on *)
(* ===================================================================== *)

Module Demo.

(** Five blocks in a line: block [n] has id [n], number [n] and timestamp
    [10 * n].  Blocks 1 to 3 belong to the view led by block 1, blocks 4
    and 5 to the view led by block 4. *)
Definition header (n : Z) : block.Header :=
  block.mkHeader n (n - 1) n (10 * n) 0 (if n <? 4 then 1 else 4) 0.

Definition notFound : error := externalError 404.

Definition lookup {A} (f : Z -> A) (n : Z) : result A :=
  if (1 <=? n) && (n <=? 5) then Ok (f n) else Err notFound.

Definition branch (head : Z) : chain.Chain :=
  chain.mkChain head
    (fun n => if n <=? head then lookup header n else Err notFound).

Definition repo : chain.Repository :=
  chain.mkRepository
    (lookup (fun n => chain.mkBlockSummary (header n)))
    (fun e => match e with externalError 404 => true | _ => false end)
    branch
    (fun _ => Ok [branch 5]).

Definition block_Number (id : thor.Bytes32) : Z := id.

Definition isAncestor (_ : chain.Repository)
    (offspring ancestor : thor.Bytes32) : result bool :=
  if (1 <=? ancestor) && (offspring <=? 5)
  then Ok (ancestor <? offspring) else Err notFound.

(** The view led by block 1 has a quorum of new-view and of pre-prepare
    messages for block 2; the view led by block 4 carries pre-commit
    messages for block 2; view 2 has no quorum; view 3 has one, but its
    first block (6) is not stored. *)
Definition newView (b : chain.Chain) (num : Z) : result bft.view :=
  if num =? 1
  then Ok (bft.mkView true 1 (fun _ => 0) (true, 2) false)
  else if num =? 4
  then Ok (bft.mkView true 4 (fun id => if id =? 2 then 3 else 0)
             (false, 0) false)
  else if num =? 2
  then Ok (bft.mkView false 2 (fun _ => 0) (false, 0) false)
  else if num =? 3
  then Ok (bft.mkView true 6 (fun _ => 0) (false, 0) false)
  else Err notFound.

(** A candidate that block 1's view has no pre-commit message for. *)
Definition stale : block.Header := block.mkHeader 9 8 0 5 0 0 0.

Definition tracker (curr : option block.Header) (lastCommitted : Z)
  : bft.rtpc := bft.mkRtpc repo curr lastCommitted.

Definition blk (n : Z) : block.Block := block.mkBlock (header n) [].

(** A block that is not stored, on top of block 5, voting in view [nv]. *)
Definition loose (nv : Z) : block.Block :=
  block.mkBlock (block.mkHeader 7 5 6 60 0 nv 0) [].

(** Modelled from the spec: the authority registry behind [Add2] and
    [Update2] (package builtin is not among the sources).  Entries are
    kept in insertion order; a new entry is active; the status of an entry
    can be updated once it is linked to another entry, which the first
    entry is not at the moment it is added. *)
Record State := mkState {
  codes : list (thor.Address * consensus.Code);
  candidates : list consensus.Candidate;
  registry : list consensus.Candidate
}.

Definition SetCode (st : State) (addr : thor.Address)
    (code : consensus.Code) : result State :=
  if addr =? 0 then Err (externalError 500)
  else Ok (mkState ((addr, code) :: codes st) (candidates st)
             (registry st)).

Definition AllCandidates (st : State) : result (list consensus.Candidate) :=
  Ok (candidates st).

Definition registered (nm : thor.Address) (reg : list consensus.Candidate)
  : bool := existsb (fun c => consensus.NodeMaster c =? nm) reg.

Definition Add2 (st : State) (nm en : thor.Address)
    (id key : thor.Bytes32) : State * (bool * option error) :=
  if registered nm (registry st) then (st, (false, None))
  else (mkState (codes st) (candidates st)
          (registry st ++ [consensus.mkCandidate nm en id key true]),
        (true, None)).

Definition setActive (nm : thor.Address) (active : bool)
    (c : consensus.Candidate) : consensus.Candidate :=
  if consensus.NodeMaster c =? nm
  then consensus.mkCandidate (consensus.NodeMaster c)
         (consensus.Endorsor c) (consensus.Identity c)
         (consensus.VrfPublicKey c) active
  else c.

Definition Update2 (st : State) (nm : thor.Address) (active : bool)
  : State * (bool * option error) :=
  if registered nm (registry st) && (2 <=? length (registry st))%nat
  then (mkState (codes st) (candidates st)
          (map (setActive nm active) (registry st)), (true, None))
  else (st, (false, None)).

(** The active flag of [nm] in the registry. *)
Definition isActive (st : State) (nm : thor.Address) : bool :=
  match find (fun c => consensus.NodeMaster c =? nm) (registry st) with
  | Some c => consensus.Active c
  | None => false
  end.

Definition master1 : thor.Address :=
  0x2a02604a8b7aaa84991c21d7de1c3238046c5275.
Definition master2 : thor.Address :=
  0x86fd9eb1cf082d7d6b0c6033fc89ccfcbf648549.
Definition master3 : thor.Address :=
  0x8f53d18bb03c84ed92abe0b6a9a8c277dbbf719f.

Definition legacy (nm : thor.Address) (active : bool)
  : consensus.Candidate := consensus.mkCandidate nm nm 0 0 active.

(** The state opened at a root: root 21 holds the three legacy
    masternodes (the first and the last one inactive), root 22 holds one
    more node without a key, root 23 holds no candidate. *)
Definition NewState (root : thor.Bytes32) : State :=
  mkState []
    (if root =? 21
     then [legacy master1 false; legacy master2 true; legacy master3 false]
     else if root =? 22
     then [legacy master1 true; legacy 77 true]
     else if root =? 23 then []
     else [legacy master1 true; legacy master2 true])
    [].

Definition Stage := State.
Definition Receipts := list Z.

(** The blocks stored for the engine: the genesis block (id 1000, number
    0) and, on top of it, the blocks with the numbers 1 to 5 and the block
    with the last number of [uint32]; the block numbered [k] has the id
    [1000 + k]. *)
Definition stored (k : Z) : block.Header :=
  block.mkHeader (1000 + k) (1000 + thor.wrap32 (k - 1)) k (10 * k) 0 0 0.

Definition ledger : chain.Repository :=
  chain.mkRepository
    (fun id =>
       let k := id - 1000 in
       if (0 <=? k) && (k <=? 5) || (k =? thor.MaxUint32)
       then Ok (chain.mkBlockSummary (stored k)) else Err notFound)
    (fun e => match e with externalError 404 => true | _ => false end)
    branch
    (fun _ => Ok []).

Definition cons (fc : thor.ForkConfig)
  : consensus.Consensus State :=
  consensus.mkConsensus State ledger NewState fc.

(** A stand-in for the verification pipeline: the timestamp check. *)
Definition validate (c : consensus.Consensus State) (st : State)
    (b : block.Block) (parent : block.Header) (now : Z)
  : result (Stage * Receipts) :=
  if block.Timestamp (block.Header_ b) <=? block.Timestamp parent
  then Err (ConsensusError
              (newConsensusError "validate" "timestamp behind parent"
                 [] [] EmptyString))
  else Ok (st, []).

Definition process :=
  consensus.Process State Stage Receipts SetCode AllCandidates Add2
    Update2 100 [1] 200 [2] 1 "tx features" "expected" "curr" "exp"
    validate.

Definition updateConsensusNodes :=
  consensus.UpdateConsensusNodesForVip193 State AllCandidates Add2
    Update2 "curr" "exp".

(** A block that is not stored, on top of the stored block with the
    preceding number: id, number and features as given. *)
Definition candidate (id number features : Z) : block.Block :=
  block.mkBlock
    (block.mkHeader id (1000 + thor.wrap32 (number - 1)) number
       (10 * thor.wrap32 (number - 1) + 10) features 0 0) [].

End Demo.

(* ===================================================================== *)
(** * The RTPC tracker: properties *)
(* ===================================================================== *)

Section RTPC_facts.

Variable isAncestor :
  chain.Repository -> thor.Bytes32 -> thor.Bytes32 -> result bool.
Variable newView : chain.Chain -> Z -> result bft.view.
Variable block_Number : thor.Bytes32 -> Z.

Local Abbreviation updateLastCommitted := (bft.updateLastCommitted isAncestor).
Local Abbreviation update := (bft.update newView block_Number).
Local Abbreviation searchBranches := (bft.searchBranches newView block_Number).
Local Abbreviation viewOf := (bft.viewOf newView block_Number).

(** [updateLastCommitted] never touches the repository handle, and a
    candidate that survives is the one that was there. *)
Lemma updateLastCommitted_frame r id :
  bft.repo (updateLastCommitted r id).2 = bft.repo r
  /\ (bft.curr (updateLastCommitted r id).2 = None
      \/ bft.curr (updateLastCommitted r id).2 = bft.curr r).
Proof.
  unfold bft.updateLastCommitted.
  repeat (case_match; simpl in * ); auto.
Qed.

(** C1. On a tracker whose [lastCommitted] is not zero,
    [updateLastCommitted id] returns an error and leaves the tracker as it
    was when the ancestry check fails or says that [id] is no offspring of
    [lastCommitted]; when [id] is an offspring, [lastCommitted] becomes
    [id], [curr] is cleared if it is present and its timestamp is at most
    that of [id]'s header, and kept otherwise.  Hence [lastCommitted] only
    ever moves to an offspring. *)
Theorem updateLastCommitted_offspring (r : bft.rtpc) (id : thor.Bytes32)
    (Hnz : thor.IsZero (bft.lastCommitted r) = false) :
  (forall e, isAncestor (bft.repo r) id (bft.lastCommitted r) = Err e ->
     updateLastCommitted r id = (Some e, r))
  /\ (isAncestor (bft.repo r) id (bft.lastCommitted r) = Ok false ->
      exists e, updateLastCommitted r id = (Some e, r))
  /\ (isAncestor (bft.repo r) id (bft.lastCommitted r) = Ok true ->
      let r' := (updateLastCommitted r id).2 in
      bft.lastCommitted r' = id
      /\ ((exists c s, bft.curr r = Some c
             /\ chain.GetBlockSummary (bft.repo r) id = Ok s
             /\ block.Timestamp c <= block.Timestamp (chain.Header s))
          -> bft.curr r' = None)
      /\ (~ (exists c s, bft.curr r = Some c
             /\ chain.GetBlockSummary (bft.repo r) id = Ok s
             /\ block.Timestamp c <= block.Timestamp (chain.Header s))
          -> bft.curr r' = bft.curr r))
  /\ (bft.lastCommitted (updateLastCommitted r id).2 <> bft.lastCommitted r
      -> isAncestor (bft.repo r) id (bft.lastCommitted r) = Ok true).
Proof.
  unfold bft.updateLastCommitted. rewrite Hnz. simpl.
  split; [|split; [|split]].
  - intros e ->. reflexivity.
  - intros ->. eauto.
  - intros ->. simpl. split; [|split].
    + repeat case_match; reflexivity.
    + intros (c & s & Hc & Hs & Hle). rewrite Hc, Hs.
      destruct (Z.leb_spec (block.Timestamp c)
                  (block.Timestamp (chain.Header s))); [reflexivity | lia].
    + intros Hno.
      destruct (bft.curr r) as [c|] eqn:Hc; simpl; [|reflexivity].
      destruct (chain.GetBlockSummary (bft.repo r) id) as [s|e] eqn:Hs;
        simpl; [|reflexivity].
      destruct (Z.leb_spec (block.Timestamp c)
                  (block.Timestamp (chain.Header s))); simpl;
        [|reflexivity].
      exfalso. apply Hno. eauto.
  - destruct (isAncestor (bft.repo r) id (bft.lastCommitted r))
      as [[|]|e]; simpl; congruence.
Qed.

(** More fuel does not change an answer of the search. *)
Lemma searchBranch_more_fuel candidate currViewTS branch :
  forall fuel fuel' num res,
    bft.searchBranch newView block_Number fuel candidate currViewTS branch num
      = Some res ->
    (fuel <= fuel')%nat ->
    bft.searchBranch newView block_Number fuel' candidate currViewTS branch
      num = Some res.
Proof.
  induction fuel as [|fuel IH]; intros fuel' num res; [discriminate|].
  destruct fuel' as [|fuel']; [lia|]. simpl. intros Hrun Hle.
  destruct (chain.GetBlockHeader branch num) as [header|e]; [|exact Hrun].
  destruct (chain.GetBlockHeader branch _) as [nv|e]; [|exact Hrun].
  destruct (block.Timestamp nv <=? currViewTS); [exact Hrun|].
  destruct (newView branch _) as [vw|e]; [|exact Hrun].
  destruct (bft.hasQCForNV vw && _); [exact Hrun|].
  destruct (thor.wrap32 _ <=? 0); [exact Hrun|].
  apply IH; [exact Hrun | lia].
Qed.

Lemma searchBranches_more_fuel candidate currViewTS fuel fuel' :
  (fuel <= fuel')%nat ->
  forall branches res,
    searchBranches fuel candidate currViewTS branches = Some res ->
    searchBranches fuel' candidate currViewTS branches = Some res.
Proof.
  intros Hle. induction branches as [|branch branches IH]; intros res; simpl;
    [auto|].
  destruct (bft.searchBranch _ _ fuel _ _ _ _) as [found|] eqn:Hone;
    [|discriminate].
  rewrite (searchBranch_more_fuel _ _ _ _ _ _ _ Hone Hle).
  destruct found as [e|[|]]; auto.
Qed.

(** Hence [update] has at most one result, whatever fuel it is given. *)
Lemma update_more_fuel fuel fuel' r newBlock res :
  update fuel r newBlock = Some res ->
  (fuel <= fuel')%nat ->
  update fuel' r newBlock = Some res.
Proof.
  unfold bft.update. intros Hrun Hle.
  destruct (viewOf r newBlock) as [currView|e]; [|exact Hrun].
  destruct (negb (bft.hasQCForNV currView)); [exact Hrun|].
  destruct (bft.update_currViewTS r currView) as [|e|currViewTS];
    try exact Hrun.
  destruct (match bft.curr r with
            | Some c => currViewTS <=? block.Timestamp c
            | None => false
            end); [exact Hrun|].
  destruct (bft.curr (if match bft.curr r with
                         | Some c => _ =? 0 | None => false end
                      then _ else r)); [exact Hrun|].
  destruct (bft.hasQCForPP currView) as [ok id'].
  destruct (negb ok || bft.hasConflictPC currView); [exact Hrun|].
  destruct (chain.GetBlockSummary _ id') as [summary|e]; [|exact Hrun].
  destruct (chain.GetBlockSummary _ (bft.lastCommitted _))
    as [committed|e]; [|exact Hrun].
  destruct (_ <=? _); [exact Hrun|].
  destruct (chain.GetBranchesByTimestamp _ _) as [branches|e];
    [|exact Hrun].
  destruct (searchBranches fuel _ _ _) as [found|] eqn:Hsearch;
    [|discriminate].
  rewrite (searchBranches_more_fuel _ _ _ _ Hle _ _ Hsearch). exact Hrun.
Qed.

(** On a well-formed branch the search ends: a round moves to a strictly
    smaller block number. *)
Lemma searchBranch_terminates candidate currViewTS branch :
  (forall n header,
     chain.GetBlockHeader branch n = Ok header ->
     1 <= block_Number (block.NV header) <= n) ->
  forall fuel num,
    num < 2 ^ 32 -> num <= Z.of_nat fuel ->
    exists res,
      bft.searchBranch newView block_Number (S fuel) candidate currViewTS
        branch num = Some res.
Proof.
  intros Hwf. induction fuel as [|fuel IH]; intros num Hmax Hfuel;
    cbn [bft.searchBranch].
  - destruct (chain.GetBlockHeader branch num) as [header|e] eqn:Hheader;
      [|eauto].
    apply Hwf in Hheader. lia.
  - destruct (chain.GetBlockHeader branch num) as [header|e] eqn:Hheader;
      [|eauto].
    apply Hwf in Hheader.
    destruct (chain.GetBlockHeader branch _) as [nv|e]; [|eauto].
    destruct (block.Timestamp nv <=? currViewTS); [eauto|].
    destruct (newView branch _) as [vw|e]; [|eauto].
    destruct (bft.hasQCForNV vw && _); [eauto|].
    unfold thor.wrap32. rewrite Z.mod_small by lia.
    destruct (_ <=? 0) eqn:Hleft; [eauto|].
    apply IH; lia.
Qed.

Lemma searchBranches_terminates candidate currViewTS fuel branches :
  2 ^ 32 <= Z.of_nat fuel ->
  Forall (bft.wellFormed block_Number) branches ->
  exists res, searchBranches fuel candidate currViewTS branches = Some res.
Proof.
  intros Hfuel.
  destruct fuel as [|fuel]; [lia|].
  induction 1 as [|branch branches [Hhead Hwf] _ IH];
    cbn [bft.searchBranches]; [eauto|].
  destruct (searchBranch_terminates candidate currViewTS branch Hwf
              fuel (block_Number (chain.HeadID branch)))
    as [found ->]; [exact Hhead | lia |].
  destruct found as [e|[|]]; eauto.
Qed.

(** If the repository only hands out well-formed branches, [update] ends
    (with a return or a panic) once it is given [2 ^ 32] rounds of the
    search. *)
Lemma update_terminates fuel r newBlock :
  2 ^ 32 <= Z.of_nat fuel ->
  (forall ts branches,
     chain.GetBranchesByTimestamp (bft.repo r) ts = Ok branches ->
     Forall (bft.wellFormed block_Number) branches) ->
  exists res, update fuel r newBlock = Some res.
Proof.
  intros Hfuel Hwf. unfold bft.update.
  destruct (viewOf r newBlock) as [currView|e]; [|eauto].
  destruct (negb (bft.hasQCForNV currView)); [eauto|].
  destruct (bft.update_currViewTS r currView) as [|e|currViewTS]; eauto.
  destruct (match bft.curr r with
            | Some c => currViewTS <=? block.Timestamp c
            | None => false
            end); [eauto|].
  set (r1 := if match bft.curr r with
                | Some c => _ =? 0 | None => false end
             then _ else r).
  assert (Hrepo : bft.repo r1 = bft.repo r).
  { subst r1.
    destruct (match bft.curr r with
              | Some c => _ =? 0 | None => false end); reflexivity. }
  destruct (bft.curr r1); [eauto|].
  destruct (bft.hasQCForPP currView) as [ok id'].
  destruct (negb ok || bft.hasConflictPC currView); [eauto|].
  destruct (chain.GetBlockSummary _ id') as [summary|e]; [|eauto].
  destruct (chain.GetBlockSummary _ (bft.lastCommitted _))
    as [committed|e]; [|eauto].
  destruct (_ <=? _); [eauto|].
  rewrite Hrepo.
  destruct (chain.GetBranchesByTimestamp _ _) as [branches|e] eqn:Hbr;
    [|eauto].
  destruct (searchBranches_terminates (chain.Header summary) currViewTS
              fuel branches Hfuel (Hwf _ _ Hbr)) as [found ->].
  destruct found; eauto.
Qed.

(** What the search may answer: it never adopts by itself. *)
Lemma update_returns fuel r newBlock e r' :
  update fuel r newBlock = Some (Return (e, r')) ->
  bft.repo r' = bft.repo r /\ bft.lastCommitted r' = bft.lastCommitted r.
Proof.
  unfold bft.update.
  repeat (case_match; simpl in * ); intros [= <- <-]; auto.
Qed.

(** C2. Let [currView] be the view [update] builds for [newBlock].  If the
    view lacks a new-view quorum, [update] returns with the tracker as it
    was.  If [update] returns with a candidate that is not the one it
    started with, then the view has its quorum, the timestamp of the
    view's first block is greater than that of the previous candidate (if
    there was one), and the timestamp of the new candidate is greater than
    that of the header of [lastCommitted]. *)
Theorem update_adopts_newer (fuel : nat) (r : bft.rtpc)
    (newBlock : block.Block) (currView : bft.view)
    (Hview : viewOf r newBlock = Ok currView) :
  (bft.hasQCForNV currView = false ->
     update fuel r newBlock = Some (Return (None, r)))
  /\ (forall e r' cand,
        update fuel r newBlock = Some (Return (e, r')) ->
        bft.curr r' = Some cand ->
        bft.curr r' <> bft.curr r ->
        bft.hasQCForNV currView = true
        /\ exists first committed,
             chain.GetBlockSummary (bft.repo r)
               (bft.getFirstBlockID currView) = Ok first
             /\ (forall c, bft.curr r = Some c ->
                   block.Timestamp c
                     < block.Timestamp (chain.Header first))
             /\ chain.GetBlockSummary (bft.repo r) (bft.lastCommitted r)
                = Ok committed
             /\ block.Timestamp (chain.Header committed)
                  < block.Timestamp cand).
Proof.
  unfold bft.update. rewrite Hview.
  split.
  - intros ->. reflexivity.
  - intros e r' cand.
    destruct (bft.hasQCForNV currView); simpl;
      [|intros [= <- <-] _ Hne; congruence].
    unfold bft.update_currViewTS.
    destruct (chain.GetBlockSummary (bft.repo r)
                (bft.getFirstBlockID currView)) as [first|e1] eqn:Hfirst;
      simpl; [|discriminate].
    destruct (match bft.curr r with
              | Some c => block.Timestamp (chain.Header first)
                            <=? block.Timestamp c
              | None => false
              end) eqn:Hts;
      [intros [= <- <-] _ Hne; congruence|].
    assert (Hprev : forall c, bft.curr r = Some c ->
              block.Timestamp c < block.Timestamp (chain.Header first)).
    { intros c Hc. rewrite Hc in Hts. lia. }
    set (r1 := if match bft.curr r with
                  | Some c => _ | None => false end
               then _ else r).
    assert (Hr1 : bft.repo r1 = bft.repo r
                  /\ bft.lastCommitted r1 = bft.lastCommitted r
                  /\ (bft.curr r1 = None \/ r1 = r)).
    { subst r1.
      destruct (match bft.curr r with
                | Some c => _ =? 0 | None => false end); simpl; auto. }
    destruct Hr1 as (Hrepo & Hlc & Hcurr).
    destruct (bft.curr r1) as [c1|] eqn:Hc1.
    { intros [= <- <-] Hc Hne. destruct Hcurr as [?| ->]; congruence. }
    destruct (bft.hasQCForPP currView) as [ok id'].
    rewrite Hrepo, Hlc.
    destruct (negb ok || bft.hasConflictPC currView);
      [intros [= <- <-]; congruence|].
    destruct (chain.GetBlockSummary (bft.repo r) id') as [s|e2];
      [|intros [= <- <-]; congruence].
    destruct (chain.GetBlockSummary (bft.repo r) (bft.lastCommitted r))
      as [committed|e3]; [|intros [= <- <-]; congruence].
    destruct (Z.leb_spec (block.Timestamp (chain.Header s))
                (block.Timestamp (chain.Header committed)));
      [intros [= <- <-]; congruence|].
    destruct (chain.GetBranchesByTimestamp (bft.repo r) _);
      [|intros [= <- <-]; congruence].
    destruct (searchBranches _ _ _ _) as [[e4|[|]]|];
      try discriminate; intros [= <- <-]; simpl; try congruence.
    intros [= <-] _. split; [reflexivity|].
    exists first, committed. auto.
Qed.

(** The guarded error branch of the first lookup of [update] is dead. *)
Lemma update_currViewTS_cases r currView :
  match chain.GetBlockSummary (bft.repo r) (bft.getFirstBlockID currView)
  with
  | Ok s =>
      bft.update_currViewTS r currView
      = bft.StepNext (block.Timestamp (chain.Header s))
  | Err _ => bft.update_currViewTS r currView = bft.StepPanic
  end.
Proof.
  unfold bft.update_currViewTS. case_match; reflexivity.
Qed.

(** C8. [update] takes the timestamp of the view's first block from the
    result of [GetBlockSummary] before it tests the error of that call.
    So, for a view with a new-view quorum, [update] panics (nil
    dereference) whenever that lookup fails; it panics in no other
    situation; and the step never leaves through its [err != nil]
    branch. *)
Theorem update_first_lookup_unchecked (fuel : nat) (r : bft.rtpc)
    (newBlock : block.Block) (currView : bft.view)
    (Hview : viewOf r newBlock = Ok currView) :
  (bft.hasQCForNV currView = true ->
     forall e,
       chain.GetBlockSummary (bft.repo r) (bft.getFirstBlockID currView)
         = Err e ->
       update fuel r newBlock = Some Panic)
  /\ (update fuel r newBlock = Some Panic ->
        bft.hasQCForNV currView = true
        /\ exists e,
             chain.GetBlockSummary (bft.repo r)
               (bft.getFirstBlockID currView) = Err e)
  /\ (forall e, bft.update_currViewTS r currView <> bft.StepReturn e).
Proof.
  pose proof (update_currViewTS_cases r currView) as Hstep.
  split; [|split].
  - intros Hqc e He. rewrite He in Hstep.
    unfold bft.update. rewrite Hview, Hqc, Hstep. reflexivity.
  - unfold bft.update. rewrite Hview.
    destruct (bft.hasQCForNV currView); simpl; [|discriminate].
    destruct (chain.GetBlockSummary (bft.repo r)
                (bft.getFirstBlockID currView)) as [s|e1].
    + rewrite Hstep.
      repeat (case_match; try discriminate).
    + eauto.
  - intros e. destruct (chain.GetBlockSummary _ _);
      rewrite Hstep; discriminate.
Qed.

End RTPC_facts.

(* ===================================================================== *)
(** * Block processing: properties *)
(* ===================================================================== *)

Section Consensus_facts.

Variables State Stage Receipts : Type.
Variable SetCode : State -> thor.Address -> consensus.Code -> result State.
Variable AllCandidates : State -> result (list consensus.Candidate).
Variable Add2 :
  State -> thor.Address -> thor.Address -> thor.Bytes32 -> thor.Bytes32 ->
  State * (bool * option error).
Variable Update2 :
  State -> thor.Address -> bool -> State * (bool * option error).
Variable Extension_Address : thor.Address.
Variable Extension_V2_RuntimeBytecodes : consensus.Code.
Variable Authority_Address : thor.Address.
Variable Authority_V2_RuntimeBytecodes : consensus.Code.
Variable DelegationFeature : Z.
Variables strErrTxFeatures strDataExpected strDataCurr strDataExp : string.
Variable validate :
  consensus.Consensus State -> State -> block.Block -> block.Header -> Z ->
  result (Stage * Receipts).

Local Abbreviation Consensus := (consensus.Consensus State).
Local Abbreviation updateNodes := (consensus.updateNodes State Add2 Update2).
Local Abbreviation UpdateConsensusNodesForVip193 :=
  (consensus.UpdateConsensusNodesForVip193 State AllCandidates Add2 Update2
     strDataCurr strDataExp).
Local Abbreviation upgradeAuthority :=
  (consensus.upgradeAuthority State Stage Receipts SetCode AllCandidates
     Add2 Update2 Authority_Address Authority_V2_RuntimeBytecodes
     strDataCurr strDataExp).
Local Abbreviation Process :=
  (consensus.Process State Stage Receipts SetCode AllCandidates Add2
     Update2 Extension_Address Extension_V2_RuntimeBytecodes
     Authority_Address Authority_V2_RuntimeBytecodes DelegationFeature
     strErrTxFeatures strDataExpected strDataCurr strDataExp validate).
Local Abbreviation passesFeatures :=
  (consensus.passesFeatures State SetCode Extension_Address
     Extension_V2_RuntimeBytecodes DelegationFeature).
Local Abbreviation requiredFeatures :=
  (consensus.requiredFeatures DelegationFeature).
Local Abbreviation ReAdded := (consensus.ReAdded State Add2 Update2).
Local Abbreviation StatusKept := (consensus.StatusKept State Update2).
Local Abbreviation AuthorityContract :=
  (consensus.AuthorityContract State Add2 Update2).
Local Abbreviation fail := (@consensus.fail Stage Receipts).

Implicit Types (c : Consensus) (blk : block.Block) (st state : State).

(** ** The feature check *)

Lemma requiredFeatures_spec vip191 number :
  requiredFeatures vip191 number
  = if number >=? vip191 then DelegationFeature else 0.
Proof.
  unfold consensus.requiredFeatures. case_match; [apply Z.lor_0_l | done].
Qed.

Lemma effective_pos h : 0 <= h -> 1 <= consensus.effective h.
Proof.
  unfold consensus.effective. destruct (Z.eqb_spec h 0); lia.
Qed.

Lemma effective_nonzero h : h <> 0 -> consensus.effective h = h.
Proof.
  unfold consensus.effective. destruct (Z.eqb_spec h 0); congruence.
Qed.

(** What [Process] does once the feature check is passed. *)
Lemma Process_after_features c blk now parentSummary state :
  passesFeatures c blk parentSummary state ->
  Process c blk now
  = match (if block.Number (block.Header_ blk)
                =? consensus.effective (thor.VIP193 (consensus.forkConfig c))
           then upgradeAuthority c state (block.Header_ blk)
           else inr state) with
    | inl out => out
    | inr state =>
        match validate c state blk (chain.Header parentSummary) now with
        | Err err => fail err
        | Ok (stage, receipts) => Return (Some stage, Some receipts, None)
        end
    end.
Proof.
  intros ((e & He & Hnf) & Hparent & Hcode & Hfeat).
  unfold consensus.Process.
  rewrite He, Hnf, Hparent. cbn [negb]. rewrite Hcode, Hfeat.
  rewrite Z.eqb_refl. reflexivity.
Qed.

(** An accepted block passed the feature check. *)
Lemma Process_accepts_features c blk now stage receipts :
  Process c blk now = Return (Some stage, Some receipts, None) ->
  block.TxsFeatures (block.Header_ blk)
  = requiredFeatures
      (consensus.effective (thor.VIP191 (consensus.forkConfig c)))
      (block.Number (block.Header_ blk)).
Proof.
  unfold consensus.Process, consensus.fail.
  destruct (chain.GetBlockSummary _ (block.ID _)); [discriminate|].
  destruct (negb (chain.IsNotFound _ _)); [discriminate|].
  destruct (chain.GetBlockSummary _ (block.ParentID _));
    [|destruct (negb _); discriminate].
  destruct (if block.Number _ =? _ then _ else _); [|discriminate].
  destruct (Z.eqb_spec (block.TxsFeatures (block.Header_ blk))
              (requiredFeatures
                 (consensus.effective (thor.VIP191 (consensus.forkConfig c)))
                 (block.Number (block.Header_ blk))));
    [auto | discriminate].
Qed.

(** C4, amended.  Let the block be one that is not stored, whose parent is
    stored and for which the write of the extension code (if due)
    succeeds.  With the VIP191 height read as [1] when it is configured as
    [0]: if the number of the block is at least the height, [Process]
    rejects it with the feature-mismatch consensus error unless the
    features of the header are exactly [DelegationFeature]; if the number
    is below the height, [Process] rejects it unless the features are
    empty.  In both cases an accepted block carries the required
    features. *)
Theorem Process_txFeatures c blk now parentSummary state
    (Hunknown : exists e,
       chain.GetBlockSummary (consensus.repo c)
         (block.ID (block.Header_ blk)) = Err e
       /\ chain.IsNotFound (consensus.repo c) e = true)
    (Hparent : chain.GetBlockSummary (consensus.repo c)
                 (block.ParentID (block.Header_ blk)) = Ok parentSummary)
    (Hcode : (if block.Number (block.Header_ blk)
                  =? consensus.effective
                       (thor.VIP191 (consensus.forkConfig c))
              then SetCode
                     (consensus.stater_NewState c
                        (block.StateRoot (chain.Header parentSummary)))
                     Extension_Address Extension_V2_RuntimeBytecodes
              else Ok (consensus.stater_NewState c
                         (block.StateRoot (chain.Header parentSummary))))
             = Ok state) :
  let header := block.Header_ blk in
  let height := consensus.effective (thor.VIP191 (consensus.forkConfig c)) in
  let mismatch expected :=
    fail (ConsensusError
            (newConsensusError "Process" strErrTxFeatures
               [strDataExpected; strDataCurr]
               [DFeatures expected; DFeatures (block.TxsFeatures header)]
               EmptyString)) in
  (height <= block.Number header ->
     (block.TxsFeatures header <> DelegationFeature ->
        Process c blk now = mismatch DelegationFeature)
     /\ (forall stage receipts,
           Process c blk now = Return (Some stage, Some receipts, None) ->
           block.TxsFeatures header = DelegationFeature))
  /\ (block.Number header < height ->
        (block.TxsFeatures header <> 0 ->
           Process c blk now = mismatch 0)
        /\ (forall stage receipts,
              Process c blk now = Return (Some stage, Some receipts, None)
              -> block.TxsFeatures header = 0)).
Proof.
  intros header height mismatch.
  destruct Hunknown as (e & He & Hnf).
  assert (Hrej : block.TxsFeatures header
                 <> requiredFeatures height (block.Number header) ->
                 Process c blk now
                 = mismatch (requiredFeatures height (block.Number header))).
  { intros Hne. subst header height mismatch. cbv beta.
    unfold consensus.Process.
    rewrite He, Hnf, Hparent. cbn [negb]. rewrite Hcode.
    destruct (Z.eqb_spec (block.TxsFeatures (block.Header_ blk))
                (requiredFeatures
                   (consensus.effective
                      (thor.VIP191 (consensus.forkConfig c)))
                   (block.Number (block.Header_ blk)))); [done|].
    reflexivity. }
  pose proof (Process_accepts_features c blk now) as Hacc.
  fold header height in Hacc.
  rewrite requiredFeatures_spec in Hrej, Hacc.
  split; intros Hnum.
  - destruct (Z.geb_spec (block.Number header) height); [|lia]. eauto.
  - destruct (Z.geb_spec (block.Number header) height); [lia|]. eauto.
Qed.

(** C7. A block whose id the repository stores is answered with
    [errKnownBlock], whatever else holds of it; a block that is not stored
    and whose parent is not found is answered with [errParentMissing]; in
    both cases neither a stage nor receipts are returned. *)
Theorem Process_flow_errors c blk now :
  (forall s,
     chain.GetBlockSummary (consensus.repo c)
       (block.ID (block.Header_ blk)) = Ok s ->
     Process c blk now = Return (None, None, Some errKnownBlock))
  /\ (forall e e',
        chain.GetBlockSummary (consensus.repo c)
          (block.ID (block.Header_ blk)) = Err e ->
        chain.IsNotFound (consensus.repo c) e = true ->
        chain.GetBlockSummary (consensus.repo c)
          (block.ParentID (block.Header_ blk)) = Err e' ->
        chain.IsNotFound (consensus.repo c) e' = true ->
        Process c blk now = Return (None, None, Some errParentMissing)).
Proof.
  split.
  - intros s Hs. unfold consensus.Process. rewrite Hs. reflexivity.
  - intros e e' He Hnf He' Hnf'. unfold consensus.Process.
    rewrite He, Hnf, He', Hnf'. reflexivity.
Qed.

(** ** The loop over the candidates *)

Lemma updateNodes_app pre post : forall st i,
  updateNodes st i (pre ++ post)
  = match updateNodes st i pre with
    | (Some e, st') => (Some e, st')
    | (None, st') => updateNodes st' (i + length pre) post
    end.
Proof.
  induction pre as [|cand pre IH]; intros st i; simpl.
  - rewrite Nat.add_0_r. reflexivity.
  - rewrite Nat.add_succ_r.
    destruct (thor.IsZero _); [reflexivity|].
    destruct (Add2 _ _ _ _ _) as [st1 [ok err]].
    destruct (negb ok || _); [reflexivity|].
    destruct (negb (consensus.Active _));
      [destruct (Update2 _ _ _) as [st2 [ok2 err2]];
       destruct (_ || _); [reflexivity|] |];
      rewrite IH; reflexivity.
Qed.

(** The loop only fails with consensus errors raised in stage
    ["UpdateNode"]. *)
Lemma updateNodes_error cands : forall st i e st',
  updateNodes st i cands = (Some e, st') ->
  exists ce, e = ConsensusError ce /\ trace ce = ["UpdateNode"%string].
Proof.
  induction cands as [|cand rest IH]; intros st i e st'; simpl.
  - discriminate.
  - unfold consensus.errNode.
    repeat case_match; try (intros [= <- <-]; eauto); eauto.
Qed.

(** A candidate without a key stops the loop. *)
Lemma updateNodes_zero_key cands cand : forall st i,
  cand ∈ cands ->
  thor.GetVrfPuiblicKey (consensus.NodeMaster cand) = 0 ->
  exists e st', updateNodes st i cands = (Some e, st').
Proof.
  induction cands as [|c0 rest IH]; intros st i Hin Hkey.
  - inversion Hin.
  - simpl. apply elem_of_cons in Hin as [<- | Hin].
    + rewrite Hkey. simpl. eauto.
    + repeat case_match; eauto.
Qed.

Lemma GetVrfPuiblicKey_lookup nm :
  thor.IsZero (thor.GetVrfPuiblicKey nm) = false ->
  thor.vrfPublicKeyMap !! nm = Some (thor.GetVrfPuiblicKey nm)
  /\ thor.GetVrfPuiblicKey nm <> 0.
Proof.
  unfold thor.GetVrfPuiblicKey, thor.IsZero.
  destruct (thor.vrfPublicKeyMap !! nm) as [key|]; simpl.
  - intros H%Z.eqb_neq. auto.
  - discriminate.
Qed.

(** The loop ends without error exactly when every candidate was looked
    up in the key table and added again with its key. *)
Lemma updateNodes_ReAdded cands : forall st i st',
  updateNodes st i cands = (None, st') <-> ReAdded st i cands st'.
Proof.
  induction cands as [|cand rest IH]; intros st i st'.
  - simpl. split.
    + intros [= <-]. constructor.
    + inversion 1. reflexivity.
  - split.
    + simpl.
      destruct (thor.IsZero _) eqn:Hkey; [discriminate|].
      apply GetVrfPuiblicKey_lookup in Hkey as [Hlook Hnz].
      destruct (Add2 _ _ _ _ _) as [st1 [ok err]] eqn:Hadd.
      destruct ok, err; simpl; try discriminate.
      destruct (consensus.Active cand) eqn:Hact; simpl.
      * intros H%IH. econstructor; eauto.
        unfold consensus.StatusKept. rewrite Hact. reflexivity.
      * destruct (Update2 _ _ _) as [st2 [ok err]] eqn:Hupd.
        destruct err; [rewrite orb_true_r; discriminate|].
        rewrite orb_false_r.
        destruct (negb ok && (0 <? i)%nat) eqn:Hok; [discriminate|].
        intros H%IH. econstructor; eauto.
        unfold consensus.StatusKept. rewrite Hact. exists ok.
        split; [exact Hupd|].
        destruct ok; [auto|]. right.
        simpl in Hok. apply Nat.ltb_ge in Hok. lia.
    + inversion 1 as [|? ? ? ? key st1 st2 ? Hlook Hnz Hadd Hstatus Hrest];
        subst. simpl.
      unfold thor.GetVrfPuiblicKey, thor.IsZero. rewrite Hlook. simpl.
      apply Z.eqb_neq in Hnz. rewrite Hnz, Hadd. simpl.
      unfold consensus.StatusKept in Hstatus.
      destruct (consensus.Active cand); simpl.
      * subst st2. apply IH. assumption.
      * destruct Hstatus as (ok & -> & Hok). rewrite orb_false_r.
        replace (negb ok && (0 <? i)%nat) with false; [apply IH; assumption|].
        destruct Hok as [-> | ->]; [reflexivity|].
        simpl. rewrite andb_false_r. reflexivity.
Qed.

(** ** The upgrade of the authority registry *)

Lemma call_ok ok (err : option error) :
  negb ok || bool_decide (is_Some err) = false -> ok = true /\ err = None.
Proof.
  destruct ok, err as [e|]; simpl; try discriminate; auto.
Qed.

(** C9. [UpdateConsensusNodesForVip193] panics (index out of range at
    [candidates[0]]) exactly when the block number is the configured VIP193
    height and [AllCandidates] returns the empty list: with at least one
    candidate, or with an error from [AllCandidates], it returns. *)
Theorem UpdateConsensusNodesForVip193_index c header :
  UpdateConsensusNodesForVip193 c header = Panic
  <-> thor.VIP193 (consensus.forkConfig c) = block.Number header
      /\ AllCandidates (consensus.stater_NewState c (block.ID header))
         = Ok [].
Proof.
  unfold consensus.UpdateConsensusNodesForVip193.
  destruct (Z.eqb_spec (thor.VIP193 (consensus.forkConfig c))
              (block.Number header)) as [Hnum|Hnum]; cbn [negb];
    [|split; [discriminate | intros [? _]; contradiction]].
  destruct (AllCandidates _) as [[|first rest]|e].
  - simpl. split; auto.
  - destruct (updateNodes _ 0%nat (first :: rest)) as [[e|] st].
    + split; [discriminate | intros [_ ?]; discriminate].
    + destruct (negb (consensus.Active first)).
      * destruct (Update2 _ _ _) as [st2 [ok err]].
        destruct (negb ok || _);
          (split; [discriminate | intros [_ ?]; discriminate]).
      * split; [discriminate | intros [_ ?]; discriminate].
  - split; [discriminate | intros [_ ?]; discriminate].
Qed.

(** Calls about other node masters leave the flag of [nm] alone. *)
Lemma updateNodes_frame isActive nm cands :
  AuthorityContract isActive ->
  forall st i st',
    updateNodes st i cands = (None, st') ->
    nm ∉ map consensus.NodeMaster cands ->
    isActive st' nm = isActive st nm.
Proof.
  intros Hcontract.
  induction cands as [|cand rest IH]; intros st i st'; simpl.
  - intros [= <-] _. reflexivity.
  - intros Hrun Hnotin.
    apply not_elem_of_cons in Hnotin as [Hne Hnotin].
    destruct (thor.IsZero _); [discriminate|].
    pose proof (consensus.add2_frame _ _ _ _ Hcontract st
                  (consensus.NodeMaster cand) (consensus.Endorsor cand)
                  (consensus.Identity cand)
                  (thor.GetVrfPuiblicKey (consensus.NodeMaster cand))
                  nm Hne) as Hadd.
    destruct (Add2 _ _ _ _ _) as [st1 [ok err]]. simpl in Hadd.
    destruct (negb ok || _); [discriminate|].
    destruct (negb (consensus.Active cand)).
    + pose proof (consensus.update2_frame _ _ _ _ Hcontract st1
                    (consensus.NodeMaster cand) false nm Hne) as Hupd.
      destruct (Update2 _ _ _) as [st2 [ok2 err2]]. simpl in Hupd.
      destruct (_ || _); [discriminate|].
      rewrite (IH _ _ _ Hrun Hnotin). congruence.
    + rewrite (IH _ _ _ Hrun Hnotin). congruence.
Qed.

(** C6. Assume the contract of the authority registry, and candidates
    with distinct node masters.  After a run of
    [UpdateConsensusNodesForVip193] that returns no error, the candidate
    list is not empty and the active flag of its first candidate is the
    recorded one; if that candidate is recorded inactive, the last call of
    the run is its status update [Update2 (nodeMaster, false)], made after
    the loop and answered [true].  Inside the loop, a [false] answer of
    that status update is passed over for the first candidate and is the
    consensus error "failed to update node status" for any later one. *)
Theorem UpdateConsensusNodesForVip193_first_status c header cands isActive
    (Hcontract : AuthorityContract isActive)
    (Hnum : thor.VIP193 (consensus.forkConfig c) = block.Number header)
    (Hcands : AllCandidates (consensus.stater_NewState c (block.ID header))
              = Ok cands)
    (Hnodup : NoDup (map consensus.NodeMaster cands)) :
  let st0 := consensus.stater_NewState c (block.ID header) in
  (forall final,
     UpdateConsensusNodesForVip193 c header = Return (None, final) ->
     exists first rest,
       cands = first :: rest
       /\ isActive final (consensus.NodeMaster first)
          = consensus.Active first
       /\ (consensus.Active first = false ->
           exists st,
             updateNodes st0 0 cands = (None, st)
             /\ Update2 st (consensus.NodeMaster first) false
                = (final, (true, None))))
  /\ (forall pre cand post st st1 st2,
        cands = pre ++ cand :: post ->
        updateNodes st0 0 pre = (None, st) ->
        thor.IsZero (thor.GetVrfPuiblicKey (consensus.NodeMaster cand))
          = false ->
        Add2 st (consensus.NodeMaster cand) (consensus.Endorsor cand)
          (consensus.Identity cand)
          (thor.GetVrfPuiblicKey (consensus.NodeMaster cand))
          = (st1, (true, None)) ->
        consensus.Active cand = false ->
        Update2 st1 (consensus.NodeMaster cand) false
          = (st2, (false, None)) ->
        match pre with
        | [] => updateNodes st0 0 cands = updateNodes st2 1 post
        | _ :: _ =>
            UpdateConsensusNodesForVip193 c header
            = Return (Some (consensus.errNode
                              "failed to update node status"
                              (consensus.NodeMaster cand) EmptyString), st2)
        end).
Proof.
  intros st0; subst st0. split.
  - intros final. unfold consensus.UpdateConsensusNodesForVip193.
    rewrite Hnum, Z.eqb_refl. cbn [negb]. rewrite Hcands.
    destruct (updateNodes _ 0%nat cands) as [[e|] st] eqn:Hloop;
      [discriminate|].
    destruct cands as [|first rest]; [discriminate|].
    intros Hrun. exists first, rest. split; [reflexivity|].
    destruct (consensus.Active first) eqn:Hact; simpl in Hrun.
    + injection Hrun as <-. split; [|discriminate].
      apply NoDup_cons in Hnodup as [Hnotin _].
      simpl in Hloop. rewrite Hact in Hloop.
      destruct (thor.IsZero _); [discriminate|].
      destruct (Add2 _ _ _ _ _) as [st1 [ok err]] eqn:Hadd.
      destruct (negb ok || _) eqn:Hok; [discriminate|].
      apply call_ok in Hok as [-> ->]. simpl in Hloop.
      rewrite (updateNodes_frame isActive _ _ Hcontract _ _ _ Hloop Hnotin).
      eapply consensus.add2_activates; eauto.
    + destruct (Update2 st _ _) as [st2 [ok err]] eqn:Hupd.
      destruct (negb ok || _) eqn:Hok; [discriminate|].
      apply call_ok in Hok as [-> ->]. injection Hrun as <-.
      split.
      * eapply consensus.update2_sets; eauto.
      * intros _. exists st. auto.
  - intros pre cand post st st1 st2 -> Hpre Hkey Hadd Hact Hupd.
    assert (Hstep : updateNodes
                      (consensus.stater_NewState c (block.ID header)) 0
                      (pre ++ cand :: post)
              = if (0 <? length pre)%nat
                then (Some (consensus.errNode "failed to update node status"
                              (consensus.NodeMaster cand) EmptyString), st2)
                else updateNodes st2 (S (length pre)) post).
    { rewrite updateNodes_app, Hpre. simpl.
      rewrite Hkey, Hadd, Hact, Hupd. simpl.
      destruct (0 <? length pre)%nat; reflexivity. }
    destruct pre as [|p pre]; [exact Hstep|].
    unfold consensus.UpdateConsensusNodesForVip193.
    rewrite Hnum, Z.eqb_refl. cbn [negb].
    rewrite Hcands, Hstep. reflexivity.
Qed.

(** What the upgrade block of [Process] yields once the authority code is
    written and the candidates are read. *)
Lemma upgradeAuthority_loop c state state' header cands :
  thor.VIP193 (consensus.forkConfig c) = block.Number header ->
  SetCode state Authority_Address Authority_V2_RuntimeBytecodes
    = Ok state' ->
  AllCandidates (consensus.stater_NewState c (block.ID header))
    = Ok cands ->
  match updateNodes (consensus.stater_NewState c (block.ID header)) 0
          cands with
  | (Some e, _) =>
      exists ce,
        e = ConsensusError ce /\ trace ce = ["UpdateNode"%string]
        /\ upgradeAuthority c state header
           = inl (fail (ConsensusError (AddTraceInfo ce "Process")))
  | (None, _) =>
      upgradeAuthority c state header = inl Panic
      \/ upgradeAuthority c state header = inr state'
      \/ exists ce,
           upgradeAuthority c state header
           = inl (fail (ConsensusError ce))
  end.
Proof.
  intros Hnum Hcode Hcands.
  unfold consensus.upgradeAuthority,
    consensus.UpdateConsensusNodesForVip193.
  rewrite Hcode, Hnum, Z.eqb_refl. cbn [negb]. rewrite Hcands.
  destruct (updateNodes _ 0%nat cands) as [[e|] st] eqn:Hloop.
  - destruct (updateNodes_error _ _ _ _ _ Hloop) as (ce & -> & Htrace).
    eauto.
  - destruct cands as [|first rest]; [auto|].
    destruct (negb (consensus.Active first)); [|auto].
    destruct (Update2 _ _ _) as [st2 [ok err]].
    destruct (negb ok || _); [|auto].
    right. right. unfold consensus.errNode. eauto.
Qed.

(** C5, amended.  Let [Process] handle a block that passes the feature
    check and whose number equals the configured VIP193 height, that
    height not being [0]; let the write of the authority code succeed and
    [AllCandidates] return [cands].  If the key table holds no key (the
    zero key) for a candidate and the candidates before it were added
    again, [Process] fails with the consensus error "vrf public key not
    found", traced through "UpdateNode" and "Process".  If any candidate
    lacks a key, [Process] fails with a consensus error.  And unless
    [Process] fails with a consensus error of the upgrade, every candidate
    was looked up in the key table and added again with the key found
    there. *)
Theorem Process_vip193_keys c blk now parentSummary state state' cands
    (Hreach : passesFeatures c blk parentSummary state)
    (Hnum : block.Number (block.Header_ blk)
            = thor.VIP193 (consensus.forkConfig c))
    (Hnz : thor.VIP193 (consensus.forkConfig c) <> 0)
    (Hcode : SetCode state Authority_Address Authority_V2_RuntimeBytecodes
             = Ok state')
    (Hcands : AllCandidates
                (consensus.stater_NewState c
                   (block.ID (block.Header_ blk))) = Ok cands) :
  let st0 := consensus.stater_NewState c (block.ID (block.Header_ blk)) in
  (forall pre cand post st,
     cands = pre ++ cand :: post ->
     ReAdded st0 0 pre st ->
     thor.GetVrfPuiblicKey (consensus.NodeMaster cand) = 0 ->
     Process c blk now
     = fail (ConsensusError
               (AddTraceInfo
                  (newConsensusError "UpdateNode"
                     "vrf public key not found" ["node"%string]
                     [DAddress (consensus.NodeMaster cand)] EmptyString)
                  "Process")))
  /\ ((exists cand,
         cand ∈ cands
         /\ thor.GetVrfPuiblicKey (consensus.NodeMaster cand) = 0) ->
      exists ce,
        Process c blk now = fail (ConsensusError ce)
        /\ trace ce = ["Process"; "UpdateNode"]%string)
  /\ ((exists st, ReAdded st0 0 cands st)
      \/ exists ce,
           Process c blk now = fail (ConsensusError ce)
           /\ trace ce = ["Process"; "UpdateNode"]%string).
Proof.
  intros st0; subst st0.
  rewrite (Process_after_features _ _ _ _ _ Hreach).
  rewrite (effective_nonzero _ Hnz), Hnum, Z.eqb_refl.
  pose proof (upgradeAuthority_loop c state state' (block.Header_ blk)
                cands (eq_sym Hnum) Hcode Hcands) as Hup.
  split; [|split].
  - intros pre cand post st -> Hpre Hkey.
    apply updateNodes_ReAdded in Hpre.
    rewrite updateNodes_app, Hpre in Hup. simpl in Hup.
    rewrite Hkey in Hup. simpl in Hup.
    destruct Hup as (ce & [= <-] & _ & ->). reflexivity.
  - intros (cand & Hin & Hkey).
    destruct (updateNodes_zero_key cands cand
                (consensus.stater_NewState c
                   (block.ID (block.Header_ blk))) 0%nat Hin Hkey)
      as (e & st' & Hloop).
    rewrite Hloop in Hup. destruct Hup as (ce & -> & Htrace & ->).
    exists (AddTraceInfo ce "Process"). split; [reflexivity|].
    simpl. rewrite Htrace. reflexivity.
  - destruct (updateNodes _ 0%nat cands) as [[e|] st] eqn:Hloop.
    + destruct Hup as (ce & _ & Htrace & ->). right.
      exists (AddTraceInfo ce "Process"). split; [reflexivity|].
      simpl. rewrite Htrace. reflexivity.
    + left. exists st. apply updateNodes_ReAdded. exact Hloop.
Qed.

(** C10, the VIP193 half on the code.  With the VIP193 height configured
    as [0], [Process] takes block number [1] into the upgrade, and
    [UpdateConsensusNodesForVip193] then rejects it, because it compares
    the block number with the configured [0]. *)
Theorem Process_vip193_zero c blk now parentSummary state state'
    (Hreach : passesFeatures c blk parentSummary state)
    (Hzero : thor.VIP193 (consensus.forkConfig c) = 0)
    (Hone : block.Number (block.Header_ blk) = 1)
    (Hcode : SetCode state Authority_Address Authority_V2_RuntimeBytecodes
             = Ok state') :
  Process c blk now
  = fail (ConsensusError
            (AddTraceInfo
               (newConsensusError "UpdateNode"
                  "block number inconsistent with vip193"
                  [strDataExp; strDataCurr] [DNumber 0; DNumber 1] EmptyString)
               "Process")).
Proof.
  rewrite (Process_after_features _ _ _ _ _ Hreach).
  rewrite Hzero, Hone. simpl.
  unfold consensus.upgradeAuthority,
    consensus.UpdateConsensusNodesForVip193.
  rewrite Hcode, Hzero, Hone. reflexivity.
Qed.

(** The VIP191 half of C10: a configured height of [0] is the height [1]
    for the feature requirement and for the upgrade of the extension
    code; neither applies to block [0]. *)
Lemma Process_vip191_zero c blk parentSummary :
  thor.VIP191 (consensus.forkConfig c) = 0 ->
  let st0 := consensus.stater_NewState c
               (block.StateRoot (chain.Header parentSummary)) in
  (forall state,
     passesFeatures c blk parentSummary state ->
     block.TxsFeatures (block.Header_ blk)
     = (if 1 <=? block.Number (block.Header_ blk)
        then DelegationFeature else 0)
     /\ (if block.Number (block.Header_ blk) =? 1
         then SetCode st0 Extension_Address Extension_V2_RuntimeBytecodes
         else Ok st0) = Ok state)
  /\ (block.Number (block.Header_ blk) = 0 ->
      forall state, passesFeatures c blk parentSummary state ->
      block.TxsFeatures (block.Header_ blk) = 0 /\ state = st0).
Proof.
  intros Hzero st0. unfold consensus.passesFeatures.
  rewrite Hzero, requiredFeatures_spec. simpl. split.
  - intros state (_ & _ & Hcode & Hfeat). split; [|exact Hcode].
    rewrite Hfeat. rewrite Z.geb_leb. reflexivity.
  - intros -> state (_ & _ & Hcode & Hfeat). simpl in *.
    injection Hcode as <-. auto.
Qed.

End Consensus_facts.

(* ===================================================================== *)
(** * The fork configuration: properties *)
(* ===================================================================== *)

(** C3, on the code.  In [NoFork] the fields VIP191, ETH_CONST and
    BLOCKLIST are [math.MaxUint32], but VIP193 is [math.MaxInt32]
    (2147483647), which is not the maximum of [uint32]; [ForkConfig.String],
    which leaves out the forks set to [math.MaxUint32], therefore lists
    VIP193 for the configuration "without any forks". *)
Theorem NoFork_VIP193_not_never :
  thor.VIP191 thor.NoFork = thor.MaxUint32
  /\ thor.ETH_CONST thor.NoFork = thor.MaxUint32
  /\ thor.BLOCKLIST thor.NoFork = thor.MaxUint32
  /\ thor.VIP193 thor.NoFork = 2 ^ 31 - 1
  /\ thor.VIP193 thor.NoFork <> thor.MaxUint32
  /\ thor.MaxUint32 = 2 ^ 32 - 1
  /\ thor.ForkConfig_String thor.NoFork = "VIP193: #2147483647"%string.
Proof.
  do 4 (split; [reflexivity|]).
  split; [discriminate|].
  split; [reflexivity|].
  vm_compute. reflexivity.
Qed.

(** The key table answers the three legacy masternodes and nobody else. *)
Lemma GetVrfPuiblicKey_table nm :
  thor.GetVrfPuiblicKey nm <> 0 <->
  nm = 0x2a02604a8b7aaa84991c21d7de1c3238046c5275
  \/ nm = 0x86fd9eb1cf082d7d6b0c6033fc89ccfcbf648549
  \/ nm = 0x8f53d18bb03c84ed92abe0b6a9a8c277dbbf719f.
Proof.
  unfold thor.GetVrfPuiblicKey, thor.vrfPublicKeyMap.
  split.
  - intros Hnz.
    destruct (decide (nm = 0x2a02604a8b7aaa84991c21d7de1c3238046c5275));
      [auto|].
    destruct (decide (nm = 0x86fd9eb1cf082d7d6b0c6033fc89ccfcbf648549));
      [auto|].
    destruct (decide (nm = 0x8f53d18bb03c84ed92abe0b6a9a8c277dbbf719f));
      [auto|].
    exfalso. apply Hnz.
    rewrite !lookup_insert_ne, lookup_singleton_ne by congruence. reflexivity.
  - intros [-> | [-> | ->]]; vm_compute; discriminate.
Qed.

(* ===================================================================== *)
(** * The sample registry keeps the contract *)
(* ===================================================================== *)

Lemma Demo_setActive_fields nm active c :
  consensus.NodeMaster (Demo.setActive nm active c) = consensus.NodeMaster c
  /\ consensus.Active (Demo.setActive nm active c)
     = if consensus.NodeMaster c =? nm then active else consensus.Active c.
Proof.
  unfold Demo.setActive.
  destruct (consensus.NodeMaster c =? nm); split; reflexivity.
Qed.

Lemma Demo_isActive_setActive nm active codes cands reg :
  Demo.registered nm reg = true ->
  Demo.isActive
    (Demo.mkState codes cands (map (Demo.setActive nm active) reg)) nm
  = active.
Proof.
  unfold Demo.isActive, Demo.registered. simpl.
  induction reg as [|c reg IH]; simpl; [discriminate|].
  destruct (Demo_setActive_fields nm active c) as [-> Hact].
  destruct (consensus.NodeMaster c =? nm); simpl; [auto | exact IH].
Qed.

Lemma Demo_isActive_setActive_other nm active other codes cands reg :
  other <> nm ->
  Demo.isActive
    (Demo.mkState codes cands (map (Demo.setActive nm active) reg)) other
  = Demo.isActive (Demo.mkState codes cands reg) other.
Proof.
  intros Hne. unfold Demo.isActive. simpl.
  induction reg as [|c reg IH]; simpl; [reflexivity|].
  destruct (Demo_setActive_fields nm active c) as [-> Hact].
  destruct (Z.eqb_spec (consensus.NodeMaster c) other) as [Heq|Hc];
    [|exact IH].
  rewrite Hact.
  destruct (Z.eqb_spec (consensus.NodeMaster c) nm); [congruence|reflexivity].
Qed.

Lemma Demo_isActive_app nm codes cands reg new :
  Demo.isActive (Demo.mkState codes cands (reg ++ [new])) nm
  = if Demo.registered nm reg
    then Demo.isActive (Demo.mkState codes cands reg) nm
    else (consensus.NodeMaster new =? nm) && consensus.Active new.
Proof.
  unfold Demo.isActive, Demo.registered. simpl.
  induction reg as [|c reg IH]; simpl.
  - destruct (consensus.NodeMaster new =? nm); reflexivity.
  - destruct (consensus.NodeMaster c =? nm); simpl; [reflexivity | exact IH].
Qed.

Lemma Demo_isActive_unregistered nm st :
  Demo.registered nm (Demo.registry st) = false -> Demo.isActive st nm = false.
Proof.
  unfold Demo.isActive, Demo.registered.
  induction (Demo.registry st) as [|c reg IH]; simpl; [reflexivity|].
  destruct (consensus.NodeMaster c =? nm); simpl; [discriminate | exact IH].
Qed.

Lemma Demo_contract :
  consensus.AuthorityContract Demo.State Demo.Add2 Demo.Update2 Demo.isActive.
Proof.
  constructor.
  - intros st nm active st'. unfold Demo.Update2.
    destruct (Demo.registered nm (Demo.registry st)) eqn:Hreg; cbn [andb];
      [|discriminate].
    destruct (2 <=? length (Demo.registry st))%nat; [|discriminate].
    intros [= <-]. apply Demo_isActive_setActive. exact Hreg.
  - intros st nm en id key st'. unfold Demo.Add2.
    destruct (Demo.registered nm (Demo.registry st)) eqn:Hreg;
      [discriminate|].
    intros [= <-]. rewrite Demo_isActive_app, Hreg. simpl.
    rewrite Z.eqb_refl. reflexivity.
  - intros st nm en id key other Hne. unfold Demo.Add2.
    destruct (Demo.registered nm (Demo.registry st)); [reflexivity|]. simpl.
    rewrite Demo_isActive_app. simpl.
    destruct (Demo.registered other (Demo.registry st)) eqn:Hother.
    + destruct st; reflexivity.
    + rewrite (Demo_isActive_unregistered _ _ Hother).
      destruct (Z.eqb_spec nm other); [congruence | reflexivity].
  - intros st nm active other Hne. unfold Demo.Update2.
    destruct (_ && _); [|reflexivity]. simpl.
    rewrite Demo_isActive_setActive_other by exact Hne.
    destruct st; reflexivity.
Qed.

(* ===================================================================== *)
(** * The properties at work on the sample chain *)
(* ===================================================================== *)

(** Block 3 arrives while the tracker holds a candidate without support in
    the view of block 1: block 2 is adopted after two rounds of the search
    along the branch of block 5. *)
Example Demo_update_adopts :
  bft.update Demo.newView Demo.block_Number 3
    (Demo.tracker (Some Demo.stale) 1) (Demo.blk 3)
  = Some (Return (None, Demo.tracker (Some (Demo.header 2)) 1))
  /\ bft.update Demo.newView Demo.block_Number 1
       (Demo.tracker (Some Demo.stale) 1) (Demo.blk 3) = None.
Proof. split; vm_compute; reflexivity. Qed.

Lemma updateLastCommitted_offspring_witness :
  thor.IsZero (bft.lastCommitted (Demo.tracker (Some (Demo.header 2)) 1))
  = false
  /\ bft.lastCommitted
       (bft.updateLastCommitted Demo.isAncestor
          (Demo.tracker (Some (Demo.header 2)) 1) 3).2 = 3
  /\ bft.curr
       (bft.updateLastCommitted Demo.isAncestor
          (Demo.tracker (Some (Demo.header 2)) 1) 3).2 = None
  /\ exists e,
       bft.updateLastCommitted Demo.isAncestor
         (Demo.tracker (Some (Demo.header 2)) 3) 2
       = (Some e, Demo.tracker (Some (Demo.header 2)) 3).
Proof.
  split; [reflexivity|].
  destruct (updateLastCommitted_offspring Demo.isAncestor
              (Demo.tracker (Some (Demo.header 2)) 1) 3 eq_refl)
    as (_ & _ & Hoff & _).
  destruct (Hoff eq_refl) as (Hlc & Hclear & _).
  split; [exact Hlc|]. split.
  - apply Hclear.
    exists (Demo.header 2), (chain.mkBlockSummary (Demo.header 3)).
    split; [reflexivity|]. split; [reflexivity|]. simpl. lia.
  - apply (updateLastCommitted_offspring Demo.isAncestor
             (Demo.tracker (Some (Demo.header 2)) 3) 2 eq_refl).
    reflexivity.
Defined.

Lemma update_adopts_newer_witness :
  bft.viewOf Demo.newView Demo.block_Number
    (Demo.tracker (Some Demo.stale) 1) (Demo.blk 3)
  = Ok (bft.mkView true 1 (fun _ => 0) (true, 2) false)
  /\ (exists first committed,
        chain.GetBlockSummary Demo.repo 1 = Ok first
        /\ block.Timestamp Demo.stale < block.Timestamp (chain.Header first)
        /\ chain.GetBlockSummary Demo.repo 1 = Ok committed
        /\ block.Timestamp (chain.Header committed)
             < block.Timestamp (Demo.header 2))
  /\ bft.update Demo.newView Demo.block_Number 0
       (Demo.tracker (Some Demo.stale) 1) (Demo.loose 2)
     = Some (Return (None, Demo.tracker (Some Demo.stale) 1)).
Proof.
  split; [reflexivity|]. split.
  - destruct (update_adopts_newer Demo.newView Demo.block_Number 3
                (Demo.tracker (Some Demo.stale) 1) (Demo.blk 3)
                (bft.mkView true 1 (fun _ => 0) (true, 2) false) eq_refl)
      as [_ Hadopt].
    destruct (Hadopt None (Demo.tracker (Some (Demo.header 2)) 1)
                (Demo.header 2))
      as (_ & first & committed & Hfirst & Hprev & Hcommitted & Hnewer).
    + vm_compute. reflexivity.
    + reflexivity.
    + vm_compute. congruence.
    + exists first, committed. split; [exact Hfirst|].
      split; [apply Hprev; reflexivity|]. split; assumption.
  - apply (update_adopts_newer Demo.newView Demo.block_Number 0
             (Demo.tracker (Some Demo.stale) 1) (Demo.loose 2)
             (bft.mkView false 2 (fun _ => 0) (false, 0) false) eq_refl).
    reflexivity.
Defined.

Lemma update_first_lookup_unchecked_witness :
  bft.viewOf Demo.newView Demo.block_Number (Demo.tracker None 1)
    (Demo.loose 3)
  = Ok (bft.mkView true 6 (fun _ => 0) (false, 0) false)
  /\ chain.GetBlockSummary Demo.repo 6 = Err Demo.notFound
  /\ bft.update Demo.newView Demo.block_Number 5 (Demo.tracker None 1)
       (Demo.loose 3) = Some Panic.
Proof.
  split; [reflexivity|]. split; [reflexivity|].
  apply (update_first_lookup_unchecked Demo.newView Demo.block_Number 5
           (Demo.tracker None 1) (Demo.loose 3)
           (bft.mkView true 6 (fun _ => 0) (false, 0) false) eq_refl)
    with (e := Demo.notFound); reflexivity.
Defined.

(** The upgrade at height 6 on the sample registry: the three legacy
    masternodes are added again with their keys, and the first and the last
    one end up inactive. *)
Example Demo_updateConsensusNodes :
  Demo.updateConsensusNodes (Demo.cons (thor.mkForkConfig 3 0 0 6))
    (block.Header_ (Demo.candidate 21 6 1))
  = Return (None,
      Demo.mkState []
        [Demo.legacy Demo.master1 false; Demo.legacy Demo.master2 true;
         Demo.legacy Demo.master3 false]
        [consensus.mkCandidate Demo.master1 Demo.master1 0
           0x96893d6f2d785dbdf75d635d74ee53b85a3e7837150d321c4965de3def134182
           false;
         consensus.mkCandidate Demo.master2 Demo.master2 0
           0x97b182c4d88435c3781bf5f29a59c169a91564acbf193c9ba95a4db3fa703f26
           true;
         consensus.mkCandidate Demo.master3 Demo.master3 0
           0x2ab534b885f45e7e628e3bea8bb1a7e914f0009d077a44ac2d4461e7731fcb2c
           false]).
Proof. vm_compute. reflexivity. Qed.

Lemma Process_flow_errors_witness :
  Demo.process (Demo.cons thor.NoFork)
    (block.mkBlock (Demo.stored 3) []) 60
  = Return (None, None, Some errKnownBlock)
  /\ Demo.process (Demo.cons thor.NoFork)
       (block.mkBlock (block.mkHeader 30 29 30 300 0 0 0) []) 60
     = Return (None, None, Some errParentMissing).
Proof.
  split.
  - apply (Process_flow_errors Demo.State Demo.Stage Demo.Receipts
             Demo.SetCode Demo.AllCandidates Demo.Add2 Demo.Update2
             100 [1] 200 [2] 1 "tx features" "expected" "curr" "exp"
             Demo.validate (Demo.cons thor.NoFork)
             (block.mkBlock (Demo.stored 3) []) 60)
      with (s := chain.mkBlockSummary (Demo.stored 3)).
    reflexivity.
  - apply (Process_flow_errors Demo.State Demo.Stage Demo.Receipts
             Demo.SetCode Demo.AllCandidates Demo.Add2 Demo.Update2
             100 [1] 200 [2] 1 "tx features" "expected" "curr" "exp"
             Demo.validate (Demo.cons thor.NoFork)
             (block.mkBlock (block.mkHeader 30 29 30 300 0 0 0) []) 60)
      with (e := Demo.notFound) (e' := Demo.notFound); reflexivity.
Defined.

Lemma Process_txFeatures_witness :
  Demo.process (Demo.cons (thor.mkForkConfig 3 0 0 9))
    (Demo.candidate 30 6 0) 60
  = Return (None, None,
      Some (ConsensusError
              (newConsensusError "Process" "tx features"
                 ["expected"; "curr"]%string [DFeatures 1; DFeatures 0]
                 EmptyString)))
  /\ Demo.process (Demo.cons (thor.mkForkConfig 3 0 0 9))
       (Demo.candidate 30 2 1) 60
     = Return (None, None,
         Some (ConsensusError
                 (newConsensusError "Process" "tx features"
                    ["expected"; "curr"]%string [DFeatures 0; DFeatures 1]
                    EmptyString))).
Proof.
  split.
  - apply (Process_txFeatures Demo.State Demo.Stage Demo.Receipts
             Demo.SetCode Demo.AllCandidates Demo.Add2 Demo.Update2
             100 [1] 200 [2] 1 "tx features" "expected" "curr" "exp"
             Demo.validate (Demo.cons (thor.mkForkConfig 3 0 0 9))
             (Demo.candidate 30 6 0) 60
             (chain.mkBlockSummary (Demo.stored 5)) (Demo.NewState 0)).
    + exists Demo.notFound. split; reflexivity.
    + reflexivity.
    + reflexivity.
    + vm_compute. discriminate.
    + vm_compute. discriminate.
  - apply (Process_txFeatures Demo.State Demo.Stage Demo.Receipts
             Demo.SetCode Demo.AllCandidates Demo.Add2 Demo.Update2
             100 [1] 200 [2] 1 "tx features" "expected" "curr" "exp"
             Demo.validate (Demo.cons (thor.mkForkConfig 3 0 0 9))
             (Demo.candidate 30 2 1) 60
             (chain.mkBlockSummary (Demo.stored 1)) (Demo.NewState 0)).
    + exists Demo.notFound. split; reflexivity.
    + reflexivity.
    + reflexivity.
    + vm_compute. reflexivity.
    + vm_compute. discriminate.
Defined.

(** C4 as stated fails where the VIP191 height is configured as [0] and
    the block has number [0]: the number is at least the height and the
    features are not [DelegationFeature], yet the block is not rejected. *)
Lemma Process_txFeatures_height_zero :
  ~ (thor.VIP191 (consensus.forkConfig (Demo.cons (thor.mkForkConfig 0 0 0 9)))
       <= block.Number (block.Header_ (Demo.candidate 30 0 0)) ->
     block.TxsFeatures (block.Header_ (Demo.candidate 30 0 0)) <> 1 ->
     exists e,
       Demo.process (Demo.cons (thor.mkForkConfig 0 0 0 9))
         (Demo.candidate 30 0 0) 60
       = Return (None, None, Some e)).
Proof.
  intros Hall.
  destruct Hall as [e He].
  - vm_compute. discriminate.
  - vm_compute. discriminate.
  - vm_compute in He. discriminate.
Qed.

Lemma Process_vip193_keys_witness :
  Demo.process (Demo.cons (thor.mkForkConfig 3 0 0 6))
    (Demo.candidate 22 6 1) 60
  = Return (None, None,
      Some (ConsensusError
              (mkConsensusError ["Process"; "UpdateNode"]%string
                 "vrf public key not found" ["node"%string] [DAddress 77]
                 EmptyString)))
  /\ exists st,
       consensus.ReAdded Demo.State Demo.Add2 Demo.Update2
         (Demo.NewState 21) 0
         [Demo.legacy Demo.master1 false; Demo.legacy Demo.master2 true;
          Demo.legacy Demo.master3 false] st.
Proof.
  split.
  - destruct (Process_vip193_keys Demo.State Demo.Stage Demo.Receipts
                Demo.SetCode Demo.AllCandidates Demo.Add2 Demo.Update2
                100 [1] 200 [2] 1 "tx features" "expected" "curr" "exp"
                Demo.validate (Demo.cons (thor.mkForkConfig 3 0 0 6))
                (Demo.candidate 22 6 1) 60
                (chain.mkBlockSummary (Demo.stored 5)) (Demo.NewState 0)
                (Demo.mkState [(200, [2])]
                   (Demo.candidates (Demo.NewState 0)) [])
                [Demo.legacy Demo.master1 true; Demo.legacy 77 true])
      as (Hkey & _ & _).
    + split; [exists Demo.notFound; split; reflexivity|].
      split; [reflexivity|]. split; reflexivity.
    + reflexivity.
    + vm_compute. discriminate.
    + reflexivity.
    + reflexivity.
    + apply (Hkey [Demo.legacy Demo.master1 true] (Demo.legacy 77 true) []
               (consensus.updateNodes Demo.State Demo.Add2 Demo.Update2
                  (Demo.NewState 22) 0 [Demo.legacy Demo.master1 true]).2).
      * reflexivity.
      * apply updateNodes_ReAdded. vm_compute. reflexivity.
      * vm_compute. reflexivity.
  - destruct (Process_vip193_keys Demo.State Demo.Stage Demo.Receipts
                Demo.SetCode Demo.AllCandidates Demo.Add2 Demo.Update2
                100 [1] 200 [2] 1 "tx features" "expected" "curr" "exp"
                Demo.validate (Demo.cons (thor.mkForkConfig 3 0 0 6))
                (Demo.candidate 21 6 1) 60
                (chain.mkBlockSummary (Demo.stored 5)) (Demo.NewState 0)
                (Demo.mkState [(200, [2])]
                   (Demo.candidates (Demo.NewState 0)) [])
                [Demo.legacy Demo.master1 false; Demo.legacy Demo.master2 true;
                 Demo.legacy Demo.master3 false])
      as (_ & _ & [Hreadded | (ce & Hfails & _)]).
    + split; [exists Demo.notFound; split; reflexivity|].
      split; [reflexivity|]. split; reflexivity.
    + reflexivity.
    + vm_compute. discriminate.
    + reflexivity.
    + reflexivity.
    + exact Hreadded.
    + vm_compute in Hfails. discriminate.
Defined.

(** C5 as stated fails where the VIP193 height is configured as [0]: the
    block whose number equals that height, block [0], is accepted without
    any lookup, although a candidate has no key. *)
Lemma Process_vip193_keys_height_zero :
  ~ (block.Number (block.Header_ (Demo.candidate 22 0 0))
     = thor.VIP193 (consensus.forkConfig
                      (Demo.cons (thor.mkForkConfig 3 0 0 0))) ->
     (exists cand,
        Demo.AllCandidates (Demo.NewState 22)
        = Ok [Demo.legacy Demo.master1 true; cand]
        /\ thor.GetVrfPuiblicKey (consensus.NodeMaster cand) = 0) ->
     exists e,
       Demo.process (Demo.cons (thor.mkForkConfig 3 0 0 0))
         (Demo.candidate 22 0 0) 60
       = Return (None, None, Some e)).
Proof.
  intros Hall.
  destruct Hall as [e He].
  - reflexivity.
  - exists (Demo.legacy 77 true). split; vm_compute; reflexivity.
  - vm_compute in He. discriminate.
Qed.

Lemma UpdateConsensusNodesForVip193_index_witness :
  thor.VIP193 (consensus.forkConfig (Demo.cons (thor.mkForkConfig 3 0 0 6)))
  = block.Number (block.Header_ (Demo.candidate 23 6 1))
  /\ Demo.AllCandidates (Demo.NewState 23) = Ok []
  /\ Demo.updateConsensusNodes (Demo.cons (thor.mkForkConfig 3 0 0 6))
       (block.Header_ (Demo.candidate 23 6 1)) = Panic.
Proof.
  split; [reflexivity|]. split; [reflexivity|].
  apply (UpdateConsensusNodesForVip193_index Demo.State Demo.AllCandidates
           Demo.Add2 Demo.Update2 "curr" "exp"
           (Demo.cons (thor.mkForkConfig 3 0 0 6))
           (block.Header_ (Demo.candidate 23 6 1))).
  split; reflexivity.
Defined.

Lemma UpdateConsensusNodesForVip193_first_status_witness :
  NoDup (map consensus.NodeMaster
           [Demo.legacy Demo.master1 false; Demo.legacy Demo.master2 true;
            Demo.legacy Demo.master3 false])
  /\ exists final,
       Demo.updateConsensusNodes (Demo.cons (thor.mkForkConfig 3 0 0 6))
         (block.Header_ (Demo.candidate 21 6 1)) = Return (None, final)
       /\ Demo.isActive final Demo.master1 = false.
Proof.
  assert (Hnodup : NoDup (map consensus.NodeMaster
            [Demo.legacy Demo.master1 false; Demo.legacy Demo.master2 true;
             Demo.legacy Demo.master3 false])).
  { apply (bool_decide_unpack _). vm_compute. reflexivity. }
  split; [exact Hnodup|].
  destruct (UpdateConsensusNodesForVip193_first_status Demo.State
              Demo.AllCandidates Demo.Add2 Demo.Update2 "curr" "exp"
              (Demo.cons (thor.mkForkConfig 3 0 0 6))
              (block.Header_ (Demo.candidate 21 6 1))
              [Demo.legacy Demo.master1 false; Demo.legacy Demo.master2 true;
               Demo.legacy Demo.master3 false]
              Demo.isActive Demo_contract eq_refl eq_refl Hnodup)
    as [Hfirst _].
  eexists. split; [vm_compute; reflexivity|].
  edestruct Hfirst as (first & rest & Hcands & Hflag & _);
    [vm_compute; reflexivity|].
  injection Hcands as <- <-. exact Hflag.
Defined.

Lemma Process_vip193_zero_witness :
  thor.VIP193 (consensus.forkConfig (Demo.cons (thor.mkForkConfig 3 0 0 0)))
  = 0
  /\ block.Number (block.Header_ (Demo.candidate 21 1 0)) = 1
  /\ Demo.process (Demo.cons (thor.mkForkConfig 3 0 0 0))
       (Demo.candidate 21 1 0) 60
     = Return (None, None,
         Some (ConsensusError
                 (mkConsensusError ["Process"; "UpdateNode"]%string
                    "block number inconsistent with vip193"
                    ["exp"; "curr"]%string [DNumber 0; DNumber 1]
                    EmptyString))).
Proof.
  split; [reflexivity|]. split; [reflexivity|].
  apply (Process_vip193_zero Demo.State Demo.Stage Demo.Receipts
           Demo.SetCode Demo.AllCandidates Demo.Add2 Demo.Update2
           100 [1] 200 [2] 1 "tx features" "expected" "curr" "exp"
           Demo.validate (Demo.cons (thor.mkForkConfig 3 0 0 0))
           (Demo.candidate 21 1 0) 60
           (chain.mkBlockSummary (Demo.stored 0)) (Demo.NewState 0)
           (Demo.mkState [(200, [2])] (Demo.candidates (Demo.NewState 0))
              [])).
  - split; [exists Demo.notFound; split; reflexivity|].
    split; [reflexivity|]. split; reflexivity.
  - reflexivity.
  - reflexivity.
  - reflexivity.
Defined.

(** With the height configured as [1], the same block is taken through the
    upgrade and accepted. *)
Example Demo_process_vip193_one :
  Demo.process (Demo.cons (thor.mkForkConfig 3 0 0 1))
    (Demo.candidate 21 1 0) 60
  = Return
      (Some (Demo.mkState [(200, [2])] (Demo.candidates (Demo.NewState 0))
               []), Some [], None).
Proof. vm_compute. reflexivity. Qed.
